(** * Sidecar injection into Kubernetes pod templates (package [inject])

    A shallow embedding of [inject/inject.go]: the health-port resolver
    ([resolvePort], [healthPorts]), the sidecar mutator
    ([injectIntoPodTemplateSpec]) and the document stream processor
    ([IntoResourceFile]), followed by the properties established about them.

    Go values are embedded as follows.
    - [int], [int32], [int64] are [Z]; the code performs no arithmetic on
      them, only comparisons and decimal printing.
    - [string] is [string]; [[]byte] is [list byte]; the conversions
      [[]byte(s)] and [string(b)] are [list_byte_of_string] and
      [string_of_list_byte].
    - slices are lists ([nil] and the empty slice coincide, [append] is [++]).
    - [map[string]string] is [gmap string string]; a map that may be [nil]
      is an [option] of it.
    - a pointer that may be [nil] is an [option].
    - a function that mutates its argument in place returns the new value of
      that argument next to its result.
    - a function returning [(T, error)] returns [Error + T]; a function
      returning only [error] returns [option Error], [None] being [nil]. *)

From Stdlib Require Import ZArith List Lia.
From Stdlib.Strings Require Import String Ascii Byte.
From Stdlib Require Import DecimalString SpecFloat.
From stdpp Require Import base option gmap strings list sorting.

Set Warnings "-register-all,-clear-no-such-hyp".

Local Open Scope string_scope.
Local Open Scope list_scope.
Local Open Scope Z_scope.

(** ** Constants *)

Definition DefaultSidecarProxyUID : Z := 1337.
Definition DefaultVerbosity : Z := 2.

Definition istioSidecarAnnotationSidecarKey : string := "alpha.istio.io/sidecar".
Definition istioSidecarAnnotationSidecarValue : string := "injected".
Definition istioSidecarAnnotationVersionKey : string := "alpha.istio.io/version".
Definition initContainerName : string := "init".
Definition proxyContainerName : string := "proxy".
Definition enableCoreDumpContainerName : string := "enable-core-dump".
Definition enableCoreDumpImage : string := "alpine".
Definition istioCertVolumeName : string := "istio-certs".
Definition istioCertSecretPrefix : string := "istio.".

(** The init-containers annotation key, a string literal in the source. *)
Definition initContainersAnnotationKey : string :=
  "pod.beta.kubernetes.io/init-containers".

(** The document separator written by [fmt.Fprint(out, "---\n")]. *)
Definition separator : list byte := [x2d; x2d; x2d; x0a].

Definition InitImageName (hub tag : string) : string := hub +:+ "/init:" +:+ tag.
Definition ProxyImageName (hub tag : string) : string :=
  hub +:+ "/proxy_debug:" +:+ tag.

(** [strconv.Itoa], [strconv.FormatInt(_, 10)] and [fmt.Sprintf("%d", _)]:
    the decimal numeral, with a leading minus sign for negative numbers. *)
Definition Itoa (n : Z) : string := NilZero.string_of_int (Z.to_int n).

(** ** Data model *)

(** [intstr.IntOrString]; [Typ] is the [Type] field, an integer tag. *)
Record IntOrString := {
  Typ : Z;
  IntVal : Z;
  StrVal : string
}.

Definition intstr_Int : Z := 0.
Definition intstr_String : Z := 1.

Definition FromInt (n : Z) : IntOrString :=
  {| Typ := intstr_Int; IntVal := n; StrVal := "" |}.
Definition FromString (s : string) : IntOrString :=
  {| Typ := intstr_String; IntVal := 0; StrVal := s |}.

Inductive Error :=
| ErrMissingNamedPort (port : IntOrString)
| ErrIncorrectPortType (port : IntOrString)
| ErrMulti (errs : list Error)
| ErrLibrary (msg : string).

Record ContainerPort := {
  PortName : string;
  PortContainerPort : Z
}.

Record HTTPGetAction := {
  HTTPGetPath : string;
  HTTPGetPort : IntOrString
}.

Record Probe := {
  HTTPGet : option HTTPGetAction
}.

Record ObjectFieldSelector := {
  FieldPath : string
}.

Record EnvVarSource := {
  FieldRef : option ObjectFieldSelector
}.

Record EnvVar := {
  EnvName : string;
  EnvValue : string;
  EnvValueFrom : option EnvVarSource
}.

Record SecurityContext := {
  CapabilitiesAdd : list string;
  Privileged : option bool;
  RunAsUser : option Z
}.

Record VolumeMount := {
  MountName : string;
  MountReadOnly : bool;
  MountPath : string
}.

Record SecretVolumeSource := {
  SecretName : string
}.

Record VolumeSource := {
  Secret : option SecretVolumeSource
}.

Record Volume := {
  VolumeName : string;
  VolumeSrc : VolumeSource
}.

Record Container := {
  ContainerName : string;
  ContainerImage : string;
  ContainerCommand : list string;
  ContainerArgs : list string;
  ContainerPorts : list ContainerPort;
  ContainerEnv : list EnvVar;
  ContainerVolumeMounts : list VolumeMount;
  LivenessProbe : option Probe;
  ReadinessProbe : option Probe;
  ImagePullPolicy : string;
  ContainerSecurityContext : option SecurityContext
}.

Record PodSpec := {
  Volumes : list Volume;
  Containers : list Container;
  ServiceAccountName : string
}.

Record ObjectMeta := {
  MetaName : string;
  Labels : gmap string string;
  Annotations : option (gmap string string)
}.

Record PodTemplateSpec := {
  Meta : ObjectMeta;
  Spec : PodSpec
}.

Inductive AuthenticationPolicy := AuthNONE | AuthMUTUAL_TLS.

#[global] Instance AuthenticationPolicy_eq_dec : EqDecision AuthenticationPolicy.
Proof. solve_decision. Defined.

Record ProxyMeshConfig := {
  ProxyListenPort : Z;
  AuthPolicy : AuthenticationPolicy;
  AuthCertsPath : string
}.

Record Params := {
  InitImage : string;
  ProxyImage : string;
  Verbosity : Z;
  SidecarProxyUID : Z;
  Version : string;
  EnableCoreDump : bool;
  Mesh : option ProxyMeshConfig;
  MeshConfigMapName : string;
  IncludeIPRanges : string
}.

(** Values of type [interface{}] handled by [encoding/json]. A Go map literal
    is an association list; [[]string] is an array of strings. *)
Inductive JSON :=
| JNull
| JBool (b : bool)
| JNumber (f : spec_float)
| JString (s : string)
| JArray (items : list JSON)
| JObject (fields : list (string * JSON)).

Definition JStrings (l : list string) : JSON := JArray (map JString l).

(** What a call that may panic leaves behind: it returned an [error]
    ([None] is [nil]) or it panicked on a [nil] pointer. *)
Inductive Outcome :=
| Returned (err : option Error)
| Panicked.

Definition enableCoreDumpContainer : JSON :=
  JObject [
    ("name", JString enableCoreDumpContainerName);
    ("image", JString enableCoreDumpImage);
    ("command", JStrings ["/bin/sh"]);
    ("args", JStrings [
       "-c";
       "sysctl -w kernel.core_pattern=/tmp/core.%e.%p.%t && ulimit -c unlimited"]);
    ("imagePullPolicy", JString "Always");
    ("securityContext", JObject [("privileged", JBool true)])
  ].

(** ** Health port resolver *)

(** In the [intstr.Int] case [port.IntValue()] is [int(port.IntVal)]; in the
    [intstr.String] case [port.String()] is [port.StrVal]. *)
Definition resolvePort (c : Container) (port : IntOrString) : Error + Z :=
  if decide (Typ port = intstr_Int) then inr (IntVal port)
  else if decide (Typ port = intstr_String) then
    match find (fun named => bool_decide (PortName named = StrVal port))
               (ContainerPorts c) with
    | Some named => inr (PortContainerPort named)
    | None => inl (ErrMissingNamedPort port)
    end
  else inl (ErrIncorrectPortType port).

(** One [if probe != nil && probe.HTTPGet != nil] block of the loop body,
    acting on the set of ports and on the errors appended so far. *)
Definition visitProbe (c : Container) (probe : option Probe)
    (st : gset Z * list Error) : gset Z * list Error :=
  match probe with
  | Some pr =>
    match HTTPGet pr with
    | Some h =>
      match resolvePort c (HTTPGetPort h) with
      | inl err => (st.1, st.2 ++ [err])
      | inr port => ({[port]} ∪ st.1, st.2)
      end
    | None => st
    end
  | None => st
  end.

Definition visitContainer (st : gset Z * list Error) (c : Container)
    : gset Z * list Error :=
  visitProbe c (ReadinessProbe c) (visitProbe c (LivenessProbe c) st).

(** [multierror.Append] yields a non-nil error as soon as one was appended. *)
Definition multierror (errs : list Error) : option Error :=
  match errs with
  | [] => None
  | _ => Some (ErrMulti errs)
  end.

(** The keys of the set are collected in map order and then sorted by
    [sort.Ints]. *)
Definition healthPorts (t : PodTemplateSpec) : list Z * option Error :=
  let st := fold_left visitContainer (Containers (Spec t)) (∅, []) in
  (merge_sort Z.le (elements st.1), multierror st.2).

(** ** Field updates of a pod template *)

Definition setAnnotations (t : PodTemplateSpec) (m : gmap string string)
    : PodTemplateSpec :=
  {| Meta := {| MetaName := MetaName (Meta t);
                Labels := Labels (Meta t);
                Annotations := Some m |};
     Spec := Spec t |}.

Definition setVolumes (t : PodTemplateSpec) (vs : list Volume)
    : PodTemplateSpec :=
  {| Meta := Meta t;
     Spec := {| Volumes := vs;
                Containers := Containers (Spec t);
                ServiceAccountName := ServiceAccountName (Spec t) |} |}.

Definition setContainers (t : PodTemplateSpec) (cs : list Container)
    : PodTemplateSpec :=
  {| Meta := Meta t;
     Spec := {| Volumes := Volumes (Spec t);
                Containers := cs;
                ServiceAccountName := ServiceAccountName (Spec t) |} |}.

(** The annotations of a template as a map; reading a [nil] map finds no
    key. *)
Definition annotation (t : PodTemplateSpec) (k : string) : option string :=
  Annotations (Meta t) ≫= (.!! k).

(** ** Sidecar mutator *)

Definition fieldRefEnv (name path : string) : EnvVar :=
  {| EnvName := name;
     EnvValue := "";
     EnvValueFrom := Some {| FieldRef := Some {| FieldPath := path |} |} |}.

Section Mutator.

(** [encoding/json]: [json.Unmarshal] into a [[]interface{}] and
    [json.Marshal] of one. *)
Variable jsonUnmarshal : list byte → Error + list JSON.
Variable jsonMarshal : list JSON → Error + list byte.

(** Lines 112 to 117 of [injectIntoPodTemplateSpec]: the entries decoded from
    the init-containers annotation, none when the annotation is absent. *)
Definition existingInitContainers (m : gmap string string)
    : Error + list JSON :=
  match m !! initContainersAnnotationKey with
  | Some initContainer => jsonUnmarshal (list_byte_of_string initContainer)
  | None => inr []
  end.

(** Lines 108 to 224 of [injectIntoPodTemplateSpec]: the function once the
    annotations map [m] exists and holds no marker. *)
Definition injectSidecar (p : Params) (t : PodTemplateSpec)
    (m : gmap string string) : PodTemplateSpec * Outcome :=
  let m := <[istioSidecarAnnotationSidecarKey :=
               istioSidecarAnnotationSidecarValue]> m in
  let m := <[istioSidecarAnnotationVersionKey := Version p]> m in
  let t := setAnnotations t m in
  (* init-container *)
  match existingInitContainers m with
  | inl err => (t, Returned (Some err))
  | inr annotations =>
    match Mesh p with
    | None => (t, Panicked)
    | Some mesh =>
      let initArgs :=
        ["-p"; Itoa (ProxyListenPort mesh); "-u"; Itoa (SidecarProxyUID p)] in
      let initArgs :=
        if decide (IncludeIPRanges p ≠ "")
        then initArgs ++ ["-i"; IncludeIPRanges p] else initArgs in
      let annotations := annotations ++ [
        JObject [
          ("name", JString initContainerName);
          ("image", JString (InitImage p));
          ("args", JStrings initArgs);
          ("imagePullPolicy", JString "Always");
          ("securityContext", JObject [
             ("capabilities", JObject [("add", JStrings ["NET_ADMIN"])])])
        ]] in
      let annotations :=
        if EnableCoreDump p
        then annotations ++ [enableCoreDumpContainer] else annotations in
      match jsonMarshal annotations with
      | inl err => (t, Returned (Some err))
      | inr initAnnotationValue =>
        let m := <[initContainersAnnotationKey :=
                     string_of_list_byte initAnnotationValue]> m in
        let t := setAnnotations t m in
        (* sidecar proxy container *)
        let args := ["proxy"; "sidecar"] in
        let args :=
          if decide (Verbosity p > 0)
          then args ++ ["-v"; Itoa (Verbosity p)] else args in
        let args :=
          if decide (MeshConfigMapName p ≠ "")
          then args ++ ["--meshConfig"; MeshConfigMapName p] else args in
        match healthPorts t with
        | (_, Some err) => (t, Returned (Some err))
        | (ports, None) =>
          let args :=
            fold_left (fun args port => args ++ ["--passthrough"; Itoa port])
                      ports args in
          let '(volumeMounts, t) :=
            if decide (AuthPolicy mesh = AuthMUTUAL_TLS) then
              let sa := ServiceAccountName (Spec t) in
              let sa := if decide (sa = "") then "default" else sa in
              ([ {| MountName := istioCertVolumeName;
                    MountReadOnly := true;
                    MountPath := AuthCertsPath mesh |} ],
               setVolumes t (Volumes (Spec t) ++ [
                 {| VolumeName := istioCertVolumeName;
                    VolumeSrc := {| Secret := Some {|
                      SecretName := istioCertSecretPrefix +:+ sa |} |} |} ]))
            else ([], t) in
          let sidecar :=
            {| ContainerName := proxyContainerName;
               ContainerImage := ProxyImage p;
               ContainerCommand := [];
               ContainerArgs := args;
               ContainerPorts := [];
               ContainerEnv := [
                 fieldRefEnv "POD_NAME" "metadata.name";
                 fieldRefEnv "POD_NAMESPACE" "metadata.namespace";
                 fieldRefEnv "POD_IP" "status.podIP" ];
               ContainerVolumeMounts := volumeMounts;
               LivenessProbe := None;
               ReadinessProbe := None;
               ImagePullPolicy := "Always";
               ContainerSecurityContext := Some {|
                 CapabilitiesAdd := [];
                 Privileged := None;
                 RunAsUser := Some (SidecarProxyUID p) |} |} in
          (setContainers t (Containers (Spec t) ++ [sidecar]), Returned None)
        end
      end
    end
  end.

Definition injectIntoPodTemplateSpec (p : Params) (t : PodTemplateSpec)
    : PodTemplateSpec * Outcome :=
  match Annotations (Meta t) with
  | None => injectSidecar p t ∅
  | Some m =>
    match m !! istioSidecarAnnotationSidecarKey with
    | Some _ =>
      (* Return unmodified resource if sidecar is already present or
         ignored. *)
      (t, Returned None)
    | None => injectSidecar p t m
    end
  end.

End Mutator.

(** ** Workload resources *)

(** [metav1.TypeMeta], the only part of a document decoded before its kind is
    known. *)
Record TypeMeta := {
  Kind : string;
  APIVersion : string
}.

Record Job := {
  JobMeta : ObjectMeta;
  JobTemplate : PodTemplateSpec
}.

Record DaemonSet := {
  DaemonSetMeta : ObjectMeta;
  DaemonSetTemplate : PodTemplateSpec
}.

Record ReplicaSet := {
  ReplicaSetMeta : ObjectMeta;
  ReplicaSetTemplate : PodTemplateSpec
}.

Record Deployment := {
  DeploymentMeta : ObjectMeta;
  DeploymentTemplate : PodTemplateSpec
}.

(** The template of a replication controller is held by pointer. *)
Record ReplicationController := {
  ReplicationControllerMeta : ObjectMeta;
  ReplicationControllerTemplate : option PodTemplateSpec
}.

(** The entries of the [kinds] table. *)
Inductive WorkloadKind :=
| KJob | KDaemonSet | KReplicaSet | KDeployment | KReplicationController.

(** The [typ] member of an entry: the schema the document is decoded into. *)
Definition typ (k : WorkloadKind) : Type :=
  match k with
  | KJob => Job
  | KDaemonSet => DaemonSet
  | KReplicaSet => ReplicaSet
  | KDeployment => Deployment
  | KReplicationController => ReplicationController
  end.

(** The key set of the [kinds] table. *)
Definition kinds (kind : string) : option WorkloadKind :=
  if decide (kind = "Job") then Some KJob
  else if decide (kind = "DaemonSet") then Some KDaemonSet
  else if decide (kind = "ReplicaSet") then Some KReplicaSet
  else if decide (kind = "Deployment") then Some KDeployment
  else if decide (kind = "ReplicationController")
       then Some KReplicationController
  else None.

(** The template an object of kind [k] embeds, when it has one. *)
Definition podTemplate (k : WorkloadKind) : typ k → option PodTemplateSpec :=
  match k with
  | KJob => fun o => Some (JobTemplate o)
  | KDaemonSet => fun o => Some (DaemonSetTemplate o)
  | KReplicaSet => fun o => Some (ReplicaSetTemplate o)
  | KDeployment => fun o => Some (DeploymentTemplate o)
  | KReplicationController => fun o => ReplicationControllerTemplate o
  end.

(** [io.Writer]. *)
Class Writer (W : Type) := Write : W → list byte → W * option Error.

(** An in-memory buffer, whose writes append and never fail. *)
#[global] Instance bufferWriter : Writer (list byte) :=
  fun buf bs => (buf ++ bs, None).

Section Stream.

Variable jsonUnmarshal : list byte → Error + list JSON.
Variable jsonMarshal : list JSON → Error + list byte.

(** [github.com/ghodss/yaml]: decoding the type header of a document,
    decoding a document into the schema of a kind, encoding an object. *)
Variable yamlUnmarshalMeta : list byte → Error + TypeMeta.
Variable yamlUnmarshal : ∀ k : WorkloadKind, list byte → Error + typ k.
Variable yamlMarshal : ∀ k : WorkloadKind, typ k → Error + list byte.

(** The [inject] member of an entry of the [kinds] table. Dereferencing the
    [nil] template of a replication controller panics. *)
Definition inject (p : Params) (k : WorkloadKind) : typ k → typ k * Outcome :=
  match k with
  | KJob => fun o =>
    let '(t, r) := injectIntoPodTemplateSpec jsonUnmarshal jsonMarshal p
                     (JobTemplate o) in
    ({| JobMeta := JobMeta o; JobTemplate := t |}, r)
  | KDaemonSet => fun o =>
    let '(t, r) := injectIntoPodTemplateSpec jsonUnmarshal jsonMarshal p
                     (DaemonSetTemplate o) in
    ({| DaemonSetMeta := DaemonSetMeta o; DaemonSetTemplate := t |}, r)
  | KReplicaSet => fun o =>
    let '(t, r) := injectIntoPodTemplateSpec jsonUnmarshal jsonMarshal p
                     (ReplicaSetTemplate o) in
    ({| ReplicaSetMeta := ReplicaSetMeta o; ReplicaSetTemplate := t |}, r)
  | KDeployment => fun o =>
    let '(t, r) := injectIntoPodTemplateSpec jsonUnmarshal jsonMarshal p
                     (DeploymentTemplate o) in
    ({| DeploymentMeta := DeploymentMeta o; DeploymentTemplate := t |}, r)
  | KReplicationController => fun o =>
    match ReplicationControllerTemplate o with
    | None => (o, Panicked)
    | Some t =>
      let '(t, r) := injectIntoPodTemplateSpec jsonUnmarshal jsonMarshal p t in
      ({| ReplicationControllerMeta := ReplicationControllerMeta o;
          ReplicationControllerTemplate := Some t |}, r)
    end
  end.

(** The body of the loop from the decoding of the type header to the
    assignment of [updated]: the bytes to emit, or the way the function is
    left early. *)
Definition updatedDocument (p : Params) (raw : list byte)
    : Outcome + list byte :=
  match yamlUnmarshalMeta raw with
  | inl err => inl (Returned (Some err))
  | inr meta =>
    match kinds (Kind meta) with
    | Some kind =>
      match yamlUnmarshal kind raw with
      | inl err => inl (Returned (Some err))
      | inr o =>
        match inject p kind o with
        | (_, Panicked) => inl Panicked
        | (_, Returned (Some err)) => inl (Returned (Some err))
        | (o, Returned None) =>
          match yamlMarshal kind o with
          | inl err => inl (Returned (Some err))
          | inr updated => inr updated
          end
        end
      end
    | None => inr raw (* unchanged *)
    end
  end.

(** [reads] lists what the successive calls of [reader.Read] return before
    [io.EOF]. The result is the state of the writer and how the function
    ended. *)
Fixpoint IntoResourceFile `{Writer W} (p : Params)
    (reads : list (Error + list byte)) (out : W) : W * Outcome :=
  match reads with
  | [] => (out, Returned None)
  | inl err :: _ => (out, Returned (Some err))
  | inr raw :: reads =>
    match updatedDocument p raw with
    | inl r => (out, r)
    | inr updated =>
      match Write out updated with
      | (out, Some err) => (out, Returned (Some err))
      | (out, None) =>
        match Write out separator with
        | (out, Some err) => (out, Returned (Some err))
        | (out, None) => IntoResourceFile p reads out
        end
      end
    end
  end.

End Stream.

(** ** Decidable equality of the data model *)

#[global] Instance byte_eq_dec : EqDecision byte := Byte.byte_eq_dec.
#[global] Instance IntOrString_eq_dec : EqDecision IntOrString.
Proof. solve_decision. Defined.
#[global] Instance ContainerPort_eq_dec : EqDecision ContainerPort.
Proof. solve_decision. Defined.
#[global] Instance HTTPGetAction_eq_dec : EqDecision HTTPGetAction.
Proof. solve_decision. Defined.
#[global] Instance Probe_eq_dec : EqDecision Probe.
Proof. solve_decision. Defined.
#[global] Instance ObjectFieldSelector_eq_dec : EqDecision ObjectFieldSelector.
Proof. solve_decision. Defined.
#[global] Instance EnvVarSource_eq_dec : EqDecision EnvVarSource.
Proof. solve_decision. Defined.
#[global] Instance EnvVar_eq_dec : EqDecision EnvVar.
Proof. solve_decision. Defined.
#[global] Instance SecurityContext_eq_dec : EqDecision SecurityContext.
Proof. solve_decision. Defined.
#[global] Instance VolumeMount_eq_dec : EqDecision VolumeMount.
Proof. solve_decision. Defined.
#[global] Instance SecretVolumeSource_eq_dec : EqDecision SecretVolumeSource.
Proof. solve_decision. Defined.
#[global] Instance VolumeSource_eq_dec : EqDecision VolumeSource.
Proof. solve_decision. Defined.
#[global] Instance Volume_eq_dec : EqDecision Volume.
Proof. solve_decision. Defined.
#[global] Instance Container_eq_dec : EqDecision Container.
Proof. solve_decision. Defined.
#[global] Instance PodSpec_eq_dec : EqDecision PodSpec.
Proof. solve_decision. Defined.
#[global] Instance ObjectMeta_eq_dec : EqDecision ObjectMeta.
Proof. solve_decision. Defined.
#[global] Instance PodTemplateSpec_eq_dec : EqDecision PodTemplateSpec.
Proof. solve_decision. Defined.
#[global] Instance Deployment_eq_dec : EqDecision Deployment.
Proof. solve_decision. Defined.

(** ** The mutator on the pointers it receives *)

(** [injectIntoPodTemplateSpec] takes [p] and [t] by pointer. Line 102
    dereferences [t]. A template that carries the marker is returned without
    [p] being read; a template without it gets its annotations map and the
    marker (lines 103 and 108) before line 109 dereferences [p]. *)
Definition injectIntoPodTemplateSpecPtr
    (jsonUnmarshal : list byte → Error + list JSON)
    (jsonMarshal : list JSON → Error + list byte)
    (p : option Params) (t : option PodTemplateSpec)
    : option PodTemplateSpec * Outcome :=
  match t with
  | None => (None, Panicked)
  | Some t =>
    match p with
    | Some p =>
      let '(t, r) := injectIntoPodTemplateSpec jsonUnmarshal jsonMarshal p t in
      (Some t, r)
    | None =>
      match annotation t istioSidecarAnnotationSidecarKey with
      | Some _ => (Some t, Returned None)
      | None =>
        (Some (setAnnotations t
                 (<[istioSidecarAnnotationSidecarKey :=
                      istioSidecarAnnotationSidecarValue]>
                    (default ∅ (Annotations (Meta t))))),
         Panicked)
      end
    end
  end.

(** ** The YAML reader

    [yamlDecoder.NewYAMLReader(bufio.NewReaderSize(in, 4096))] of
    [k8s.io/apimachinery], for an input [in] that delivers the bytes of a
    list and reports its end by a read of its own, as files and in-memory
    readers do. *)








(** ** Sample inputs

    Concrete parameters, templates and documents, and stand-ins for the JSON
    and YAML libraries that are defined on the sample documents only. They
    serve to run the embedding on concrete inputs. *)

Module Sample.

Definition quote : string := String (ascii_of_byte x22) EmptyString.

(** A compact rendering of the values the mutator builds: no escapes, and
    no numbers other than zero. *)
Fixpoint jsonEncode (j : JSON) : string :=
  match j with
  | JNull => "null"
  | JBool b => if b then "true" else "false"
  | JNumber _ => "0"
  | JString s => quote +:+ s +:+ quote
  | JArray items =>
    "[" +:+
    (fix elems (l : list JSON) : string :=
       match l with
       | [] => ""
       | x :: l =>
         jsonEncode x +:+ (if l is [] then "" else ",") +:+ elems l
       end) items +:+ "]"
  | JObject fields =>
    "{" +:+
    (fix members (l : list (string * JSON)) : string :=
       match l with
       | [] => ""
       | (k, x) :: l =>
         quote +:+ k +:+ quote +:+ ":" +:+ jsonEncode x +:+
         (if l is [] then "" else ",") +:+ members l
       end) fields +:+ "}"
  end.

Definition jsonMarshal (l : list JSON) : Error + list byte :=
  inr (list_byte_of_string (jsonEncode (JArray l))).

Definition existingInit : JSON :=
  JObject [("name", JString "setup"); ("image", JString "busybox")].

(** Decodes the empty array and the array holding [existingInit]. *)
Definition jsonUnmarshal (b : list byte) : Error + list JSON :=
  if decide (b = list_byte_of_string "[]") then inr []
  else if decide (b = list_byte_of_string (jsonEncode (JArray [existingInit])))
  then inr [existingInit]
  else inl (ErrLibrary "invalid character").

Definition mesh : ProxyMeshConfig :=
  {| ProxyListenPort := 15001;
     AuthPolicy := AuthNONE;
     AuthCertsPath := "/etc/certs" |}.

Definition params : Params :=
  {| InitImage := InitImageName "docker.io/istio" "unittest";
     ProxyImage := ProxyImageName "docker.io/istio" "unittest";
     Verbosity := DefaultVerbosity;
     SidecarProxyUID := DefaultSidecarProxyUID;
     Version := "12345678";
     EnableCoreDump := false;
     Mesh := Some mesh;
     MeshConfigMapName := "";
     IncludeIPRanges := "" |}.

Definition paramsTLS : Params :=
  {| InitImage := InitImageName "docker.io/istio" "unittest";
     ProxyImage := ProxyImageName "docker.io/istio" "unittest";
     Verbosity := 0;
     SidecarProxyUID := DefaultSidecarProxyUID;
     Version := "12345678";
     EnableCoreDump := true;
     Mesh := Some {| ProxyListenPort := 15001;
                     AuthPolicy := AuthMUTUAL_TLS;
                     AuthCertsPath := "/etc/certs" |};
     MeshConfigMapName := "istio";
     IncludeIPRanges := "10.0.0.0/8" |}.

Definition httpProbe (port : IntOrString) : option Probe :=
  Some {| HTTPGet := Some {| HTTPGetPath := "/healthz";
                             HTTPGetPort := port |} |}.

Definition container (name : string) (ports : list ContainerPort)
    (liveness readiness : option Probe) : Container :=
  {| ContainerName := name;
     ContainerImage := "fake.docker.io/google-samples/hello-go-gke:1.0";
     ContainerCommand := [];
     ContainerArgs := [];
     ContainerPorts := ports;
     ContainerEnv := [];
     ContainerVolumeMounts := [];
     LivenessProbe := liveness;
     ReadinessProbe := readiness;
     ImagePullPolicy := "";
     ContainerSecurityContext := None |}.

Definition http80 : ContainerPort :=
  {| PortName := "http"; PortContainerPort := 80 |}.

Definition template (annotations : option (gmap string string))
    (containers : list Container) : PodTemplateSpec :=
  {| Meta := {| MetaName := "";
                Labels := {[ "app" := "hello" ]};
                Annotations := annotations |};
     Spec := {| Volumes := [];
                Containers := containers;
                ServiceAccountName := "" |} |}.

(** The pod template of the test data: one container, one named port, no
    probe, no annotation. *)
Definition hello : PodTemplateSpec :=
  template None [container "hello" [http80] None None].

(** Two containers with four probes: the named port [http] twice, the
    literal ports 8080 and 80. *)
Definition probed : PodTemplateSpec :=
  template (Some {[ initContainersAnnotationKey :=
                      jsonEncode (JArray [existingInit]) ]})
    [ container "web" [http80]
        (httpProbe (FromString "http")) (httpProbe (FromInt 8080));
      container "api" [http80]
        (httpProbe (FromInt 80)) (httpProbe (FromString "http")) ].

(** A liveness probe on the port name [admin], which the container does not
    declare, next to a readiness probe on the declared name [http]. *)
Definition unmatched : PodTemplateSpec :=
  template None
    [ container "web" [http80]
        (httpProbe (FromString "admin")) (httpProbe (FromString "http")) ].

(** A template that carries the marker under a value other than
    [injected]. *)
Definition marked : PodTemplateSpec :=
  template (Some {[ istioSidecarAnnotationSidecarKey := "ignore" ]})
    [container "hello" [http80] None None].

(** Documents are written line by line, each line ended by a line feed. *)
Definition unlines (ls : list string) : list byte :=
  list_byte_of_string
    (fold_right (λ l rest, l +:+ String (ascii_of_byte x0a) rest) "" ls).

(** A document of a kind outside the [kinds] table. *)
Definition service : list byte :=
  unlines [
    "apiVersion: v1";
    "kind: Service";
    "metadata:";
    "  name: hello";
    "spec:";
    "  ports:";
    "  - port: 80" ].

(** A deployment whose pod template carries the marker, as an encoder prints
    it. *)
Definition canonicalLines : list string := [
  "apiVersion: extensions/v1beta1";
  "kind: Deployment";
  "metadata:";
  "  creationTimestamp: null";
  "  name: hello";
  "spec:";
  "  strategy: {}";
  "  template:";
  "    metadata:";
  "      annotations:";
  "        alpha.istio.io/sidecar: injected";
  "      creationTimestamp: null";
  "    spec:";
  "      containers:";
  "      - image: fake.docker.io/google-samples/hello-go-gke:1.0";
  "        name: hello";
  "        resources: {}";
  "status: {}" ].

Definition canonical : list byte := unlines canonicalLines.

(** The same deployment under a comment line, as a person may have written
    it. *)
Definition commented : list byte :=
  unlines ("# rolled out by hand" :: canonicalLines).

(** The object both documents decode to. *)
Definition deployment : Deployment :=
  {| DeploymentMeta := {| MetaName := "hello";
                          Labels := ∅;
                          Annotations := None |};
     DeploymentTemplate :=
       {| Meta := {| MetaName := "";
                     Labels := ∅;
                     Annotations := Some {[
                       istioSidecarAnnotationSidecarKey :=
                         istioSidecarAnnotationSidecarValue ]} |};
          Spec := {| Volumes := [];
                     Containers := [container "hello" [] None None];
                     ServiceAccountName := "" |} |} |}.

(** A YAML codec on the three sample documents: decoding drops the comment
    line, encoding prints the canonical form. *)
Definition yamlUnmarshalMeta (raw : list byte) : Error + TypeMeta :=
  if decide (raw = service)
  then inr {| Kind := "Service"; APIVersion := "v1" |}
  else if decide (raw = canonical ∨ raw = commented)
  then inr {| Kind := "Deployment"; APIVersion := "extensions/v1beta1" |}
  else inl (ErrLibrary "yaml: unsupported document").

Definition yamlUnmarshal (k : WorkloadKind) (raw : list byte)
    : Error + typ k :=
  match k with
  | KDeployment =>
    if decide (raw = canonical ∨ raw = commented)
    then inr deployment
    else inl (ErrLibrary "yaml: unsupported document")
  | _ => inl (ErrLibrary "yaml: unsupported document")
  end.

Definition yamlMarshal (k : WorkloadKind) : typ k → Error + list byte :=
  match k with
  | KDeployment => λ o,
    if decide (o = deployment)
    then inr canonical
    else inl (ErrLibrary "yaml: unsupported object")
  | _ => λ _, inl (ErrLibrary "yaml: unsupported object")
  end.

(** Parameters whose mesh configuration is a [nil] pointer. *)
Definition paramsNoMesh : Params :=
  {| InitImage := InitImageName "docker.io/istio" "unittest";
     ProxyImage := ProxyImageName "docker.io/istio" "unittest";
     Verbosity := DefaultVerbosity;
     SidecarProxyUID := DefaultSidecarProxyUID;
     Version := "12345678";
     EnableCoreDump := false;
     Mesh := None;
     MeshConfigMapName := "";
     IncludeIPRanges := "" |}.

(** An encoder that rejects every value. *)
Definition failingMarshal (l : list JSON) : Error + list byte :=
  inl (ErrLibrary "json: unsupported type").


(** A writer whose every write fails, as a closed pipe does. *)
Definition closedPipe : Writer unit :=
  λ _ _, ((), Some (ErrLibrary "write: closed pipe")).

(** A deployment that was not injected yet, and the object it decodes to. *)
Definition plain : list byte :=
  unlines [
    "apiVersion: extensions/v1beta1";
    "kind: Deployment";
    "metadata:";
    "  name: hello";
    "spec:";
    "  template:";
    "    spec:";
    "      containers:";
    "      - image: fake.docker.io/google-samples/hello-go-gke:1.0";
    "        name: hello" ].

Definition plainDeployment : Deployment :=
  {| DeploymentMeta := {| MetaName := "hello";
                          Labels := ∅;
                          Annotations := None |};
     DeploymentTemplate :=
       {| Meta := {| MetaName := ""; Labels := ∅; Annotations := None |};
          Spec := {| Volumes := [];
                     Containers := [container "hello" [] None None];
                     ServiceAccountName := "" |} |} |}.

(** The object the injector makes of it under [params], and that object as
    an encoder prints it. *)
Definition injectedDeployment : Deployment :=
  (inject jsonUnmarshal jsonMarshal params KDeployment plainDeployment).1.

Definition injected : list byte :=
  unlines [
    "apiVersion: extensions/v1beta1";
    "kind: Deployment";
    "metadata:";
    "  creationTimestamp: null";
    "  name: hello";
    "spec:";
    "  strategy: {}";
    "  template:";
    "    metadata:";
    "      annotations:";
    "        alpha.istio.io/sidecar: injected";
    "        alpha.istio.io/version: " +:+ quote +:+ "12345678" +:+ quote;
    "        pod.beta.kubernetes.io/init-containers: '" +:+
      default "" (annotation (DeploymentTemplate injectedDeployment)
                    initContainersAnnotationKey) +:+ "'";
    "      creationTimestamp: null";
    "    spec:";
    "      containers:";
    "      - image: fake.docker.io/google-samples/hello-go-gke:1.0";
    "        name: hello";
    "        resources: {}";
    "      - args:";
    "        - proxy";
    "        - sidecar";
    "        - -v";
    "        - " +:+ quote +:+ "2" +:+ quote;
    "        env:";
    "        - name: POD_NAME";
    "          valueFrom:";
    "            fieldRef:";
    "              fieldPath: metadata.name";
    "        - name: POD_NAMESPACE";
    "          valueFrom:";
    "            fieldRef:";
    "              fieldPath: metadata.namespace";
    "        - name: POD_IP";
    "          valueFrom:";
    "            fieldRef:";
    "              fieldPath: status.podIP";
    "        image: docker.io/istio/proxy_debug:unittest";
    "        imagePullPolicy: Always";
    "        name: proxy";
    "        resources: {}";
    "        securityContext:";
    "          runAsUser: 1337";
    "status: {}" ].

(** A second YAML codec, on these two documents. *)
Definition plainUnmarshalMeta (raw : list byte) : Error + TypeMeta :=
  if decide (raw = plain ∨ raw = injected)
  then inr {| Kind := "Deployment"; APIVersion := "extensions/v1beta1" |}
  else inl (ErrLibrary "yaml: unsupported document").

Definition plainUnmarshal (k : WorkloadKind) (raw : list byte)
    : Error + typ k :=
  match k with
  | KDeployment =>
    if decide (raw = plain) then inr plainDeployment
    else if decide (raw = injected) then inr injectedDeployment
    else inl (ErrLibrary "yaml: unsupported document")
  | _ => inl (ErrLibrary "yaml: unsupported document")
  end.

Definition plainMarshal (k : WorkloadKind) : typ k → Error + list byte :=
  match k with
  | KDeployment => λ o,
    if decide (o = injectedDeployment)
    then inr injected
    else inl (ErrLibrary "yaml: unsupported object")
  | _ => λ _, inl (ErrLibrary "yaml: unsupported object")
  end.


End Sample.

(** ** Vocabulary of the properties *)

(** The port reference of a probe when the probe is an HTTP-get probe. *)
Definition probePort (probe : option Probe) : list IntOrString :=
  match probe with
  | Some {| HTTPGet := Some h |} => [HTTPGetPort h]
  | _ => []
  end.

(** The port references of the HTTP-get probes of a container, liveness
    first. *)
Definition probePorts (c : Container) : list IntOrString :=
  probePort (LivenessProbe c) ++ probePort (ReadinessProbe c).

(** Every HTTP-get probe port of the containers, each resolved against the
    container that declares the probe, in container order. *)
Definition resolutions (cs : list Container) : list (Error + Z) :=
  c ← cs; resolvePort c <$> probePorts c.

Definition resolvedPorts (rs : list (Error + Z)) : list Z :=
  omap (λ r, match r with inr port => Some port | inl _ => None end) rs.

Definition resolutionErrors (rs : list (Error + Z)) : list Error :=
  omap (λ r, match r with inl err => Some err | inr _ => None end) rs.

(** The template carries the marker annotation, under whatever value. *)
Definition hasMarker (t : PodTemplateSpec) : Prop :=
  is_Some (annotation t istioSidecarAnnotationSidecarKey).

(** The [--passthrough] arguments of a list of ports. *)
Definition passthrough (ports : list Z) : list string :=
  port ← ports; ["--passthrough"; Itoa port].

(** The network-setup entry of the init-containers annotation: the image of
    the configuration, the arguments [-p <proxyListenPort> -u <uid>] followed
    by [-i <cidrRanges>] when ranges are configured, and a security context
    that adds the [NET_ADMIN] capability. *)
Definition networkSetupEntry (p : Params) (mesh : ProxyMeshConfig) : JSON :=
  JObject [
    ("name", JString "init");
    ("image", JString (InitImage p));
    ("args", JArray (
       [JString "-p"; JString (Itoa (ProxyListenPort mesh));
        JString "-u"; JString (Itoa (SidecarProxyUID p))] ++
       if decide (IncludeIPRanges p = "") then []
       else [JString "-i"; JString (IncludeIPRanges p)]));
    ("imagePullPolicy", JString "Always");
    ("securityContext", JObject [
       ("capabilities", JObject [("add", JArray [JString "NET_ADMIN"])])])
  ].

(** The entries of the init-containers annotation after injection: the
    entries already there, the network-setup entry, and the core-dump entry
    when core dumps are enabled. *)
Definition initContainerEntries (p : Params) (mesh : ProxyMeshConfig)
    (existing : list JSON) : list JSON :=
  existing ++ [networkSetupEntry p mesh] ++
  if EnableCoreDump p then [enableCoreDumpContainer] else [].

(** The certificate volume of a pod whose service account is [sa]. *)
Definition certVolume (sa : string) : Volume :=
  {| VolumeName := "istio-certs";
     VolumeSrc := {| Secret := Some {|
       SecretName := "istio." +:+ (if decide (sa = "") then "default" else sa)
     |} |} |}.

(** The entries the init-containers annotation of a template decodes to,
    none when the template has no such annotation. *)
Definition existingEntries (jsonUnmarshal : list byte → Error + list JSON)
    (t : PodTemplateSpec) : Error + list JSON :=
  match annotation t "pod.beta.kubernetes.io/init-containers" with
  | Some blob => jsonUnmarshal (list_byte_of_string blob)
  | None => inr []
  end.

(** The annotations of a template once the marker and the version are set. *)
Definition markedAnnotations (p : Params) (t : PodTemplateSpec)
    : gmap string string :=
  <[istioSidecarAnnotationVersionKey := Version p]>
    (<[istioSidecarAnnotationSidecarKey := istioSidecarAnnotationSidecarValue]>
       (default ∅ (Annotations (Meta t)))).

(** Every HTTP-get probe port of every container resolves. *)
Definition allProbesResolve (cs : list Container) : Prop :=
  ∀ c port, c ∈ cs → port ∈ probePorts c → ∃ n, resolvePort c port = inr n.

(** The metadata of an object of kind [k]. *)
Definition objectMeta (k : WorkloadKind) : typ k → ObjectMeta :=
  match k with
  | KJob => JobMeta
  | KDaemonSet => DaemonSetMeta
  | KReplicaSet => ReplicaSetMeta
  | KDeployment => DeploymentMeta
  | KReplicationController => ReplicationControllerMeta
  end.

(** ** The health port resolver: proofs *)

Lemma visitProbe_spec (c : Container) (probe : option Probe)
    (st : gset Z * list Error) :
  visitProbe c probe st =
    (list_to_set (resolvedPorts (resolvePort c <$> probePort probe)) ∪ st.1,
     st.2 ++ resolutionErrors (resolvePort c <$> probePort probe)).
Proof.
  destruct st as [s es]. unfold visitProbe, probePort.
  destruct probe as [[[h|]]|]; simpl.
  - destruct (resolvePort c (HTTPGetPort h)); simpl; f_equal;
      rewrite ?app_nil_r; set_solver.
  - rewrite app_nil_r. f_equal. set_solver.
  - rewrite app_nil_r. f_equal. set_solver.
Qed.

Lemma resolvedPorts_app (xs ys : list (Error + Z)) :
  resolvedPorts (xs ++ ys) = resolvedPorts xs ++ resolvedPorts ys.
Proof. apply omap_app. Qed.

Lemma resolutionErrors_app (xs ys : list (Error + Z)) :
  resolutionErrors (xs ++ ys) = resolutionErrors xs ++ resolutionErrors ys.
Proof. apply omap_app. Qed.

Lemma visitContainer_spec (st : gset Z * list Error) (c : Container) :
  visitContainer st c =
    (list_to_set (resolvedPorts (resolvePort c <$> probePorts c)) ∪ st.1,
     st.2 ++ resolutionErrors (resolvePort c <$> probePorts c)).
Proof.
  unfold visitContainer, probePorts. rewrite !visitProbe_spec. simpl.
  rewrite fmap_app, resolvedPorts_app, resolutionErrors_app, app_assoc.
  f_equal. rewrite list_to_set_app_L. set_solver.
Qed.

Lemma fold_visitContainer (cs : list Container) (st : gset Z * list Error) :
  fold_left visitContainer cs st =
    (list_to_set (resolvedPorts (resolutions cs)) ∪ st.1,
     st.2 ++ resolutionErrors (resolutions cs)).
Proof.
  revert st. induction cs as [|c cs IH]; intros [s es]; simpl.
  - rewrite app_nil_r. f_equal. set_solver.
  - rewrite IH, visitContainer_spec. unfold resolutions. simpl.
    fold (resolutions cs).
    rewrite resolvedPorts_app, resolutionErrors_app, app_assoc.
    f_equal. rewrite list_to_set_app_L. set_solver.
Qed.

Lemma healthPorts_ports (t : PodTemplateSpec) :
  (healthPorts t).1 =
    merge_sort Z.le
      (elements (list_to_set (C := gset Z)
                   (resolvedPorts (resolutions (Containers (Spec t)))))).
Proof.
  unfold healthPorts. rewrite fold_visitContainer. simpl.
  by rewrite (right_id_L ∅ (∪)).
Qed.

Lemma healthPorts_error (t : PodTemplateSpec) :
  (healthPorts t).2 =
    multierror (resolutionErrors (resolutions (Containers (Spec t)))).
Proof. unfold healthPorts. by rewrite fold_visitContainer. Qed.

Lemma StronglySorted_le_lt (l : list Z) :
  StronglySorted Z.le l → NoDup l → StronglySorted Z.lt l.
Proof.
  induction 1 as [|x l Hl IH Hx]; intros Hnd; [constructor|].
  apply NoDup_cons in Hnd as [Hnotin Hnd].
  constructor; [by apply IH|].
  rewrite Forall_forall in Hx |- *. intros y Hy.
  assert (x ≠ y) by (intros ->; by apply Hnotin, list_elem_of_In).
  specialize (Hx y Hy). lia.
Qed.

Lemma healthPorts_elem_of (t : PodTemplateSpec) (port : Z) :
  port ∈ (healthPorts t).1 ↔
  port ∈ resolvedPorts (resolutions (Containers (Spec t))).
Proof.
  rewrite healthPorts_ports, merge_sort_Permutation, elem_of_elements.
  apply elem_of_list_to_set.
Qed.

Lemma healthPorts_sorted (t : PodTemplateSpec) :
  StronglySorted Z.lt (healthPorts t).1.
Proof.
  rewrite healthPorts_ports. apply StronglySorted_le_lt.
  - apply (StronglySorted_merge_sort Z.le).
  - rewrite merge_sort_Permutation. apply NoDup_elements.
Qed.

Lemma elem_of_resolvedPorts (rs : list (Error + Z)) (port : Z) :
  port ∈ resolvedPorts rs ↔ inr port ∈ rs.
Proof.
  unfold resolvedPorts. rewrite list_elem_of_omap. split.
  - intros ([e|q] & Hin & Heq); [done|]. by simplify_eq.
  - intros Hin. by exists (inr port).
Qed.

Lemma healthPorts_NoDup (t : PodTemplateSpec) : NoDup (healthPorts t).1.
Proof.
  rewrite healthPorts_ports, merge_sort_Permutation. apply NoDup_elements.
Qed.

Lemma healthPorts_resolved (t : PodTemplateSpec) (port : Z) :
  port ∈ (healthPorts t).1 ↔ inr port ∈ resolutions (Containers (Spec t)).
Proof. by rewrite healthPorts_elem_of, elem_of_resolvedPorts. Qed.

Lemma elem_of_resolutionErrors (rs : list (Error + Z)) (err : Error) :
  err ∈ resolutionErrors rs ↔ inl err ∈ rs.
Proof.
  unfold resolutionErrors. rewrite list_elem_of_omap. split.
  - intros ([e|q] & Hin & Heq); [|done]. by simplify_eq.
  - intros Hin. by exists (inl err).
Qed.

Lemma healthPorts_reports (t : PodTemplateSpec) (err : Error) :
  inl err ∈ resolutions (Containers (Spec t)) ↔
  ∃ errs, (healthPorts t).2 = Some (ErrMulti errs) ∧ err ∈ errs.
Proof.
  rewrite healthPorts_error, <- elem_of_resolutionErrors.
  destruct (resolutionErrors _) as [|e es]; simpl.
  - split; [by intros ?%elem_of_nil|]. by intros (? & ? & ?).
  - split; [by eexists|]. intros (errs & Heq & Hin). by simplify_eq.
Qed.

Lemma resolvePort_named (c : Container) (port : IntOrString)
    (pre post : list ContainerPort) (named : ContainerPort) :
  Typ port = intstr_String →
  ContainerPorts c = pre ++ named :: post →
  PortName named = StrVal port →
  (∀ other, other ∈ pre → PortName other ≠ StrVal port) →
  resolvePort c port = inr (PortContainerPort named).
Proof.
  intros Hty Hports Hname Hpre. unfold resolvePort.
  rewrite Hty, Hports. simpl. clear Hports.
  induction pre as [|x pre IH]; simpl.
  - by rewrite bool_decide_eq_true_2.
  - rewrite bool_decide_eq_false_2 by (apply Hpre; left).
    apply IH. intros other Hin. apply Hpre. by right.
Qed.

Lemma resolvePort_missing (c : Container) (port : IntOrString) :
  Typ port = intstr_String →
  (∀ named, named ∈ ContainerPorts c → PortName named ≠ StrVal port) →
  resolvePort c port = inl (ErrMissingNamedPort port).
Proof.
  intros Hty Hnone. unfold resolvePort. rewrite Hty. simpl.
  induction (ContainerPorts c) as [|x l IH]; simpl; [done|].
  rewrite bool_decide_eq_false_2 by (apply Hnone; left).
  apply IH. intros named Hin. apply Hnone. by right.
Qed.

(** C5. The health port resolver. A literal integer port resolves to itself.
    A port name resolves to the container port of the first port of that name
    declared by the container at hand, and to nothing else than that
    container's declarations; a name that no declared port carries yields the
    missing-named-port error. Over a pod template, every HTTP-get liveness
    and readiness probe is resolved against its own container: the ports
    returned are exactly those that resolved, in strictly ascending order and
    so without repetition, and the error returned aggregates the error of
    every probe that failed, in probe order, being nil when none failed. *)
Theorem C5_health_port_resolution (t : PodTemplateSpec) :
  (∀ c port, Typ port = intstr_Int → resolvePort c port = inr (IntVal port)) ∧
  (∀ c port pre named post,
     Typ port = intstr_String →
     ContainerPorts c = pre ++ named :: post →
     PortName named = StrVal port →
     (∀ other, other ∈ pre → PortName other ≠ StrVal port) →
     resolvePort c port = inr (PortContainerPort named)) ∧
  (∀ c port,
     Typ port = intstr_String →
     (∀ named, named ∈ ContainerPorts c → PortName named ≠ StrVal port) →
     resolvePort c port = inl (ErrMissingNamedPort port)) ∧
  (∀ c c' port,
     ContainerPorts c = ContainerPorts c' →
     resolvePort c port = resolvePort c' port) ∧
  StronglySorted Z.lt (healthPorts t).1 ∧
  NoDup (healthPorts t).1 ∧
  (∀ port,
     port ∈ (healthPorts t).1 ↔ inr port ∈ resolutions (Containers (Spec t))) ∧
  (∀ err,
     inl err ∈ resolutions (Containers (Spec t)) ↔
     ∃ errs, (healthPorts t).2 = Some (ErrMulti errs) ∧ err ∈ errs) ∧
  (healthPorts t).2 =
    match resolutionErrors (resolutions (Containers (Spec t))) with
    | [] => None
    | errs => Some (ErrMulti errs)
    end.
Proof.
  split_and!.
  - intros c port Hty. unfold resolvePort. by rewrite Hty.
  - intros c port pre named post. apply resolvePort_named.
  - apply resolvePort_missing.
  - intros c c' port Heq. unfold resolvePort. by rewrite Heq.
  - apply healthPorts_sorted.
  - apply healthPorts_NoDup.
  - apply healthPorts_resolved.
  - apply healthPorts_reports.
  - rewrite healthPorts_error. by destruct (resolutionErrors _).
Qed.

Lemma C5_health_port_resolution_witness :
  let web :=
    Sample.container "web" [Sample.http80]
      (Sample.httpProbe (FromString "admin"))
      (Sample.httpProbe (FromString "http")) in
  resolvePort web (FromInt 8080) = inr 8080 ∧
  resolvePort web (FromString "http") = inr 80 ∧
  resolvePort web (FromString "admin") =
    inl (ErrMissingNamedPort (FromString "admin")) ∧
  resolvePort web (FromString "http") =
    resolvePort (Sample.container "api" [Sample.http80] None None)
      (FromString "http").
Proof.
  intros web.
  destruct (C5_health_port_resolution Sample.unmatched)
    as (Hint & Hnamed & Hmissing & Hlocal & _).
  split_and!.
  - apply (Hint web (FromInt 8080)). reflexivity.
  - apply (Hnamed web (FromString "http") [] Sample.http80 []);
      [reflexivity | reflexivity | reflexivity |].
    intros other Hin. by apply elem_of_nil in Hin.
  - apply (Hmissing web (FromString "admin")); [reflexivity|].
    intros named Hin. apply list_elem_of_singleton in Hin as ->. discriminate.
  - apply Hlocal. reflexivity.
Defined.

(** ** The sidecar mutator: proofs *)

Lemma healthPorts_setAnnotations (t : PodTemplateSpec)
    (m : gmap string string) :
  healthPorts (setAnnotations t m) = healthPorts t.
Proof. reflexivity. Qed.

Lemma fold_passthrough (ports : list Z) (args : list string) :
  fold_left (λ args port, args ++ ["--passthrough"; Itoa port]) ports args =
  args ++ passthrough ports.
Proof.
  revert args. induction ports as [|port ports IH]; intros args; simpl.
  - by rewrite app_nil_r.
  - rewrite IH. unfold passthrough. simpl. by rewrite <- app_assoc.
Qed.

Lemma annotation_keys_distinct :
  istioSidecarAnnotationSidecarKey ≠ istioSidecarAnnotationVersionKey ∧
  istioSidecarAnnotationSidecarKey ≠ initContainersAnnotationKey ∧
  istioSidecarAnnotationVersionKey ≠ initContainersAnnotationKey.
Proof. split_and!; discriminate. Qed.

Section MutatorProperties.

Variable jsonUnmarshal : list byte → Error + list JSON.
Variable jsonMarshal : list JSON → Error + list byte.

Local Abbreviation existingInitContainers :=
  (existingInitContainers jsonUnmarshal).
Local Abbreviation injectSidecar := (injectSidecar jsonUnmarshal jsonMarshal).
Local Abbreviation injectIntoPodTemplateSpec :=
  (injectIntoPodTemplateSpec jsonUnmarshal jsonMarshal).

(** The annotations the mutator starts from: the map of the template, or a
    fresh one when the template has none. *)
Lemma inject_unmarked (p : Params) (t : PodTemplateSpec) :
  ¬ hasMarker t →
  injectIntoPodTemplateSpec p t =
    injectSidecar p t (default ∅ (Annotations (Meta t))).
Proof.
  intros Hno. unfold injectIntoPodTemplateSpec.
  destruct (Annotations (Meta t)) as [m|] eqn:Hm; [|done]. simpl.
  destruct (m !! istioSidecarAnnotationSidecarKey) eqn:Hk; [|done].
  destruct Hno. unfold hasMarker, annotation. rewrite Hm. simpl. by eexists.
Qed.

Lemma inject_marked (p : Params) (t : PodTemplateSpec) :
  hasMarker t → injectIntoPodTemplateSpec p t = (t, Returned None).
Proof.
  intros [v Hv]. unfold annotation in Hv. unfold injectIntoPodTemplateSpec.
  destruct (Annotations (Meta t)) as [m|]; [|done]. simpl in Hv.
  by rewrite Hv.
Qed.

(** The marker is set before any step that can fail. *)
Lemma injectSidecar_marks (p : Params) (t : PodTemplateSpec)
    (m : gmap string string) :
  hasMarker (injectSidecar p t m).1.
Proof.
  destruct annotation_keys_distinct as (Hsv & Hsi & Hvi).
  assert (∀ (u : PodTemplateSpec) (m' : gmap string string),
            is_Some (m' !! istioSidecarAnnotationSidecarKey) →
            hasMarker (setAnnotations u m')) as Hset by done.
  assert (∀ u vs, hasMarker u → hasMarker (setVolumes u vs)) as Hvol by done.
  assert (∀ u cs, hasMarker u → hasMarker (setContainers u cs)) as Hcs
    by done.
  set (m2 := <[istioSidecarAnnotationVersionKey := Version p]>
               (<[istioSidecarAnnotationSidecarKey :=
                    istioSidecarAnnotationSidecarValue]> m)).
  assert (is_Some (m2 !! istioSidecarAnnotationSidecarKey)) as H2.
  { unfold m2. rewrite lookup_insert_ne, lookup_insert_eq by done.
    by eexists. }
  assert (∀ v, is_Some (<[initContainersAnnotationKey := v]> m2
                          !! istioSidecarAnnotationSidecarKey)) as H3.
  { intros v. by rewrite lookup_insert_ne. }
  unfold injectSidecar. fold m2.
  destruct (existingInitContainers m2); [by apply Hset|].
  destruct (Mesh p) as [mesh|]; [|by apply Hset].
  destruct (jsonMarshal _) as [|value]; [by apply Hset|].
  destruct (healthPorts _) as [ports [err|]]; [by apply Hset|].
  destruct (decide (AuthPolicy mesh = AuthMUTUAL_TLS));
    simpl; auto using Hset, Hvol, Hcs.
Qed.

Lemma inject_marks (p : Params) (t : PodTemplateSpec) :
  hasMarker (injectIntoPodTemplateSpec p t).1.
Proof.
  destruct (decide (hasMarker t)) as [Hm|Hm].
  - by rewrite inject_marked.
  - rewrite inject_unmarked by done. apply injectSidecar_marks.
Qed.

(** C2. Injection is idempotent. On a template that carries the marker
    annotation the mutator returns success and the template, every field
    unchanged. Hence a second run, under whatever parameters, on the
    template a first run leaves behind returns success and leaves that
    template as it is. *)
Theorem C2_injection_idempotent (p : Params) :
  (∀ t, hasMarker t → injectIntoPodTemplateSpec p t = (t, Returned None)) ∧
  (∀ q t,
     injectIntoPodTemplateSpec q (injectIntoPodTemplateSpec p t).1 =
       ((injectIntoPodTemplateSpec p t).1, Returned None)).
Proof.
  split.
  - intros t. apply inject_marked.
  - intros q t. apply inject_marked, inject_marks.
Qed.

(** C9. The guard looks at the presence of the marker key alone. Whatever
    value the annotations map holds under [alpha.istio.io/sidecar], the
    mutator returns success and the template unchanged; two templates that
    differ in that value only are both left as they are. *)
Theorem C9_guard_keys_on_presence (p : Params) (t : PodTemplateSpec)
    (m : gmap string string) (value : string) :
  Annotations (Meta t) = Some m →
  m !! "alpha.istio.io/sidecar" = Some value →
  injectIntoPodTemplateSpec p t = (t, Returned None) ∧
  ∀ other,
    let t' := setAnnotations t (<["alpha.istio.io/sidecar" := other]> m) in
    injectIntoPodTemplateSpec p t' = (t', Returned None).
Proof.
  intros Hm Hv. split.
  - unfold injectIntoPodTemplateSpec. rewrite Hm.
    change istioSidecarAnnotationSidecarKey with "alpha.istio.io/sidecar".
    by rewrite Hv.
  - intros other t'. apply inject_marked. unfold hasMarker, annotation, t'.
    simpl. change istioSidecarAnnotationSidecarKey
      with "alpha.istio.io/sidecar".
    rewrite lookup_insert_eq. by eexists.
Qed.

(** Inversion of a successful run of [injectSidecar]: the steps that can fail
    did not, and [t'] is the template built, in either mode of the
    authentication policy. *)
Ltac inject_success H :=
  unfold injectSidecar in H;
  destruct (existingInitContainers _) as [?|decoded] eqn:Hdecoded;
    [discriminate H|];
  destruct (Mesh _) as [mesh|] eqn:Hmesh; [|discriminate H];
  destruct (jsonMarshal _) as [?|value] eqn:Hvalue; [discriminate H|];
  rewrite !healthPorts_setAnnotations in H;
  destruct (healthPorts _) as [ports [?|]] eqn:Hports; [discriminate H|];
  rewrite fold_passthrough in H;
  destruct (decide (AuthPolicy mesh = AuthMUTUAL_TLS)) as [Htls|Htls];
  injection H as <-.

Lemma existingInitContainers_unmarked (p : Params) (t : PodTemplateSpec) :
  existingInitContainers
    (<[istioSidecarAnnotationVersionKey := Version p]>
       (<[istioSidecarAnnotationSidecarKey :=
            istioSidecarAnnotationSidecarValue]>
          (default ∅ (Annotations (Meta t))))) =
  match annotation t initContainersAnnotationKey with
  | Some blob => jsonUnmarshal (list_byte_of_string blob)
  | None => inr []
  end.
Proof.
  destruct annotation_keys_distinct as (Hsv & Hsi & Hvi).
  unfold existingInitContainers, annotation.
  rewrite !lookup_insert_ne by done.
  destruct (Annotations (Meta t)); simpl; [done|].
  by rewrite lookup_empty.
Qed.

(** C4. After a successful injection into a template without the marker, the
    last container is the sidecar and its arguments are [proxy], [sidecar],
    then [-v <verbosity>] exactly when the verbosity is positive, then
    [--meshConfig <name>] exactly when a name is configured, then one
    [--passthrough <port>] pair for each port the health port resolver
    returns for the template; those ports are the ports that the probes
    resolve to, in strictly ascending order and without repetition. *)
Theorem C4_sidecar_arguments (p : Params) (t t' : PodTemplateSpec) :
  ¬ hasMarker t →
  injectIntoPodTemplateSpec p t = (t', Returned None) →
  ∃ sidecar,
    last (Containers (Spec t')) = Some sidecar ∧
    ContainerName sidecar = "proxy" ∧
    ContainerArgs sidecar =
      ["proxy"; "sidecar"] ++
      (if decide (0 < Verbosity p) then ["-v"; Itoa (Verbosity p)] else []) ++
      (if decide (MeshConfigMapName p = "") then []
       else ["--meshConfig"; MeshConfigMapName p]) ++
      passthrough (healthPorts t).1 ∧
    StronglySorted Z.lt (healthPorts t).1 ∧
    NoDup (healthPorts t).1 ∧
    ∀ port,
      port ∈ (healthPorts t).1 ↔ inr port ∈ resolutions (Containers (Spec t)).
Proof.
  intros Hno H. rewrite inject_unmarked in H by done.
  pose proof (healthPorts_sorted t) as Hsorted.
  pose proof (healthPorts_NoDup t) as Hnodup.
  pose proof (healthPorts_resolved t) as Hin.
  inject_success H; eexists; (split; [apply last_snoc|]);
    (split; [reflexivity|]); (split; [|done]); simpl;
    destruct (decide (Verbosity p > 0)), (decide (0 < Verbosity p));
    try lia;
    destruct (decide (MeshConfigMapName p ≠ "")),
      (decide (MeshConfigMapName p = "")); done.
Qed.

(** C6. After a successful injection into a template without the marker whose
    init-containers annotation is absent or decodes to [existing], the
    init-containers annotation is the JSON encoding of the entries of
    [existing] in their order, followed by the network-setup entry, followed
    by the core-dump entry exactly when core dumps are enabled. *)
Theorem C6_init_containers_annotation (p : Params) (t t' : PodTemplateSpec)
    (existing : list JSON) :
  ¬ hasMarker t →
  match annotation t "pod.beta.kubernetes.io/init-containers" with
  | Some blob => jsonUnmarshal (list_byte_of_string blob) = inr existing
  | None => existing = []
  end →
  injectIntoPodTemplateSpec p t = (t', Returned None) →
  ∃ mesh value,
    Mesh p = Some mesh ∧
    jsonMarshal
      (existing ++ [networkSetupEntry p mesh] ++
       if EnableCoreDump p then [enableCoreDumpContainer] else []) =
      inr value ∧
    annotation t' "pod.beta.kubernetes.io/init-containers" =
      Some (string_of_list_byte value).
Proof.
  intros Hno Hold H. rewrite inject_unmarked in H by done.
  assert (∀ found value l,
    jsonMarshal
      (if EnableCoreDump p then
         (found ++ [JObject [
            ("name", JString initContainerName);
            ("image", JString (InitImage p));
            ("args", JStrings l);
            ("imagePullPolicy", JString "Always");
            ("securityContext", JObject [
               ("capabilities", JObject [("add", JStrings ["NET_ADMIN"])])])
          ]]) ++ [enableCoreDumpContainer]
       else
         found ++ [JObject [
            ("name", JString initContainerName);
            ("image", JString (InitImage p));
            ("args", JStrings l);
            ("imagePullPolicy", JString "Always");
            ("securityContext", JObject [
               ("capabilities", JObject [("add", JStrings ["NET_ADMIN"])])])
          ]]) = inr value →
    ∀ mesh,
    l = (if decide (IncludeIPRanges p ≠ "")
         then ["-p"; Itoa (ProxyListenPort mesh); "-u";
               Itoa (SidecarProxyUID p)] ++ ["-i"; IncludeIPRanges p]
         else ["-p"; Itoa (ProxyListenPort mesh); "-u";
               Itoa (SidecarProxyUID p)]) →
    jsonMarshal
      (found ++ [networkSetupEntry p mesh] ++
       if EnableCoreDump p then [enableCoreDumpContainer] else []) =
      inr value) as Hentries.
  { intros found value l Hv mesh ->. rewrite <- Hv.
    unfold networkSetupEntry, initContainerName, JStrings.
    destruct (EnableCoreDump p), (decide (IncludeIPRanges p ≠ "")),
      (decide (IncludeIPRanges p = "")); try done;
      by rewrite <- ?app_assoc. }
  assert (existingInitContainers
    (<[istioSidecarAnnotationVersionKey := Version p]>
       (<[istioSidecarAnnotationSidecarKey :=
            istioSidecarAnnotationSidecarValue]>
          (default ∅ (Annotations (Meta t))))) = inr existing) as Hfound.
  { rewrite existingInitContainers_unmarked.
    change initContainersAnnotationKey
      with "pod.beta.kubernetes.io/init-containers".
    destruct (annotation t _); by subst. }
  inject_success H; rewrite Hfound in Hdecoded; simplify_eq;
    exists mesh, value; (split; [done|]);
    (split; [by eapply Hentries|]);
    unfold annotation; simpl;
    change initContainersAnnotationKey
      with "pod.beta.kubernetes.io/init-containers";
    by rewrite lookup_insert_eq.
Qed.

(** C7. After a successful injection into a template without the marker:
    under the mutual-TLS policy the sidecar has exactly one volume mount,
    read-only, at the configured certificate path, and exactly one volume is
    appended to the pod spec, sourced from the secret named [istio.] followed
    by the service-account name of the pod, [default] standing in for an
    unset name; under any other policy the sidecar has no volume mount and
    the volumes of the pod spec are unchanged. *)
Theorem C7_certificate_volume (p : Params) (t t' : PodTemplateSpec) :
  ¬ hasMarker t →
  injectIntoPodTemplateSpec p t = (t', Returned None) →
  ∃ mesh sidecar,
    Mesh p = Some mesh ∧
    last (Containers (Spec t')) = Some sidecar ∧
    if decide (AuthPolicy mesh = AuthMUTUAL_TLS) then
      ContainerVolumeMounts sidecar =
        [ {| MountName := "istio-certs";
             MountReadOnly := true;
             MountPath := AuthCertsPath mesh |} ] ∧
      Volumes (Spec t') =
        Volumes (Spec t) ++ [certVolume (ServiceAccountName (Spec t))]
    else
      ContainerVolumeMounts sidecar = [] ∧
      Volumes (Spec t') = Volumes (Spec t).
Proof.
  intros Hno H. rewrite inject_unmarked in H by done.
  inject_success H; exists mesh; eexists; (split; [done|]);
    (split; [apply last_snoc|]);
    destruct (decide (AuthPolicy mesh = AuthMUTUAL_TLS)); done.
Qed.

(** C10. Frame of a successful injection into a template without the marker.
    The name and the labels of the template and the service-account name are
    unchanged. The containers are the containers of the input, unchanged and
    in their order, followed by one more container. The volumes are those of
    the input, followed by one more volume under the mutual-TLS policy and by
    nothing otherwise. Every annotation other than the marker, the version
    and the init-containers annotation is unchanged. *)
Theorem C10_injection_frame (p : Params) (t t' : PodTemplateSpec) :
  ¬ hasMarker t →
  injectIntoPodTemplateSpec p t = (t', Returned None) →
  MetaName (Meta t') = MetaName (Meta t) ∧
  Labels (Meta t') = Labels (Meta t) ∧
  ServiceAccountName (Spec t') = ServiceAccountName (Spec t) ∧
  (∃ sidecar, Containers (Spec t') = Containers (Spec t) ++ [sidecar]) ∧
  (∃ mesh, Mesh p = Some mesh ∧
     if decide (AuthPolicy mesh = AuthMUTUAL_TLS)
     then ∃ volume, Volumes (Spec t') = Volumes (Spec t) ++ [volume]
     else Volumes (Spec t') = Volumes (Spec t)) ∧
  ∀ key,
    key ≠ "alpha.istio.io/sidecar" →
    key ≠ "alpha.istio.io/version" →
    key ≠ "pod.beta.kubernetes.io/init-containers" →
    annotation t' key = annotation t key.
Proof.
  intros Hno H. rewrite inject_unmarked in H by done.
  assert (∀ key v1 v2 v3,
    key ≠ "alpha.istio.io/sidecar" →
    key ≠ "alpha.istio.io/version" →
    key ≠ "pod.beta.kubernetes.io/init-containers" →
    (<[initContainersAnnotationKey := v3]>
       (<[istioSidecarAnnotationVersionKey := v2]>
          (<[istioSidecarAnnotationSidecarKey := v1]>
             (default ∅ (Annotations (Meta t)))))) !! key =
    annotation t key) as Hframe.
  { intros key v1 v2 v3 H1 H2 H3. rewrite !lookup_insert_ne by done.
    unfold annotation. destruct (Annotations (Meta t)); simpl; [done|].
    apply lookup_empty. }
  inject_success H; split_and!; try done; try by eexists.
  all: try (exists mesh; split; [done|];
            destruct (decide (AuthPolicy mesh = AuthMUTUAL_TLS)); try done;
            by eexists).
  all: intros key H1 H2 H3; unfold annotation at 1; simpl; by apply Hframe.
Qed.

(** C1, amended. A probe port that does not resolve is fatal for the
    template. When some HTTP-get probe of a template without the marker has a
    port that fails to resolve, the mutator does not return success, and it
    leaves the pod spec as it was: no sidecar container is appended and no
    volume is added. When moreover the steps before port resolution pass (the
    mesh configuration is present, the init-containers annotation is absent
    or decodes, and the new annotation encodes), the mutator returns the
    aggregated error of the health port resolver, which lists the error of
    that probe. *)
Theorem C1_resolution_error_is_fatal (p : Params) (t : PodTemplateSpec)
    (err : Error) :
  ¬ hasMarker t →
  inl err ∈ resolutions (Containers (Spec t)) →
  (injectIntoPodTemplateSpec p t).2 ≠ Returned None ∧
  Spec (injectIntoPodTemplateSpec p t).1 = Spec t ∧
  ∀ mesh existing value,
    Mesh p = Some mesh →
    match annotation t "pod.beta.kubernetes.io/init-containers" with
    | Some blob => jsonUnmarshal (list_byte_of_string blob) = inr existing
    | None => existing = []
    end →
    jsonMarshal (initContainerEntries p mesh existing) = inr value →
    ∃ errs,
      err ∈ errs ∧
      (healthPorts t).2 = Some (ErrMulti errs) ∧
      (injectIntoPodTemplateSpec p t).2 = Returned (Some (ErrMulti errs)).
Proof.
  intros Hno Herr. rewrite inject_unmarked by done.
  apply healthPorts_reports in Herr as (errs & Hreport & Hin).
  unfold injectSidecar. rewrite existingInitContainers_unmarked.
  destruct (healthPorts t) as [ports failure] eqn:Hports.
  simpl in Hreport. subst failure.
  split_and!.
  - destruct (match annotation t _ with Some _ => _ | None => _ end);
      [done|].
    destruct (Mesh p) as [mesh|]; [|done].
    destruct (jsonMarshal _); [done|].
    rewrite !healthPorts_setAnnotations, Hports. done.
  - destruct (match annotation t _ with Some _ => _ | None => _ end);
      [done|].
    destruct (Mesh p) as [mesh|]; [|done].
    destruct (jsonMarshal _); [done|].
    rewrite !healthPorts_setAnnotations, Hports. done.
  - intros mesh existing value Hmesh Hold Hvalue. exists errs.
    split; [done|]. split; [done|].
    change initContainersAnnotationKey
      with "pod.beta.kubernetes.io/init-containers".
    assert (match annotation t "pod.beta.kubernetes.io/init-containers" with
            | Some blob => jsonUnmarshal (list_byte_of_string blob)
            | None => inr []
            end = inr existing) as ->.
    { destruct (annotation t _); by subst. }
    rewrite Hmesh.
    assert (∀ l, l = initContainerEntries p mesh existing →
                 jsonMarshal l = inr value) as Hsame by (by intros ? ->).
    rewrite Hsame.
    + by rewrite !healthPorts_setAnnotations, Hports.
    + unfold initContainerEntries, networkSetupEntry, initContainerName,
        JStrings.
      destruct (EnableCoreDump p), (decide (IncludeIPRanges p ≠ "")),
        (decide (IncludeIPRanges p = "")); try done;
        by rewrite <- ?app_assoc.
Qed.

End MutatorProperties.

(** ** The sidecar mutator on the sample templates *)

Lemma sample_unmarked (containers : list Container) :
  ¬ hasMarker (Sample.template None containers).
Proof. intros [v Hv]. discriminate Hv. Qed.

Lemma probed_unmarked : ¬ hasMarker Sample.probed.
Proof. intros [v Hv]. vm_compute in Hv. discriminate Hv. Qed.

Lemma C2_injection_idempotent_witness :
  hasMarker Sample.marked ∧
  injectIntoPodTemplateSpec Sample.jsonUnmarshal Sample.jsonMarshal
    Sample.params Sample.marked = (Sample.marked, Returned None).
Proof.
  assert (hasMarker Sample.marked) as Hmarked.
  { exists "ignore". reflexivity. }
  split; [exact Hmarked|].
  exact (proj1 (C2_injection_idempotent Sample.jsonUnmarshal Sample.jsonMarshal
                  Sample.params) Sample.marked Hmarked).
Defined.

Lemma C9_guard_keys_on_presence_witness :
  injectIntoPodTemplateSpec Sample.jsonUnmarshal Sample.jsonMarshal
    Sample.paramsTLS Sample.marked = (Sample.marked, Returned None).
Proof.
  apply (C9_guard_keys_on_presence Sample.jsonUnmarshal Sample.jsonMarshal
           Sample.paramsTLS Sample.marked
           {[ istioSidecarAnnotationSidecarKey := "ignore" ]} "ignore");
    reflexivity.
Defined.

Lemma C4_sidecar_arguments_witness :
  ∃ sidecar,
    last (Containers (Spec
      (injectIntoPodTemplateSpec Sample.jsonUnmarshal Sample.jsonMarshal
         Sample.paramsTLS Sample.probed).1)) = Some sidecar ∧
    ContainerArgs sidecar =
      ["proxy"; "sidecar"; "--meshConfig"; "istio";
       "--passthrough"; "80"; "--passthrough"; "8080"].
Proof.
  destruct (C4_sidecar_arguments Sample.jsonUnmarshal Sample.jsonMarshal
              Sample.paramsTLS Sample.probed
              (injectIntoPodTemplateSpec Sample.jsonUnmarshal Sample.jsonMarshal
                 Sample.paramsTLS Sample.probed).1
              probed_unmarked ltac:(vm_compute; reflexivity))
    as (sidecar & Hlast & _ & Hargs & _).
  exists sidecar. split; [exact Hlast|]. rewrite Hargs. reflexivity.
Defined.

Lemma C6_init_containers_annotation_witness :
  ∃ value,
    Sample.jsonMarshal
      [Sample.existingInit;
       networkSetupEntry Sample.paramsTLS
         {| ProxyListenPort := 15001;
            AuthPolicy := AuthMUTUAL_TLS;
            AuthCertsPath := "/etc/certs" |};
       enableCoreDumpContainer] = inr value ∧
    annotation
      (injectIntoPodTemplateSpec Sample.jsonUnmarshal Sample.jsonMarshal
         Sample.paramsTLS Sample.probed).1
      "pod.beta.kubernetes.io/init-containers" =
      Some (string_of_list_byte value).
Proof.
  destruct (C6_init_containers_annotation Sample.jsonUnmarshal
              Sample.jsonMarshal Sample.paramsTLS Sample.probed
              (injectIntoPodTemplateSpec Sample.jsonUnmarshal Sample.jsonMarshal
                 Sample.paramsTLS Sample.probed).1
              [Sample.existingInit] probed_unmarked
              ltac:(vm_compute; reflexivity) ltac:(vm_compute; reflexivity))
    as (mesh & value & Hmesh & Hvalue & Hannotation).
  injection Hmesh as <-. exists value. split; [exact Hvalue|exact Hannotation].
Defined.

Lemma C7_certificate_volume_witness :
  ∃ sidecar,
    last (Containers (Spec
      (injectIntoPodTemplateSpec Sample.jsonUnmarshal Sample.jsonMarshal
         Sample.paramsTLS Sample.probed).1)) = Some sidecar ∧
    ContainerVolumeMounts sidecar =
      [ {| MountName := "istio-certs";
           MountReadOnly := true;
           MountPath := "/etc/certs" |} ] ∧
    Volumes (Spec
      (injectIntoPodTemplateSpec Sample.jsonUnmarshal Sample.jsonMarshal
         Sample.paramsTLS Sample.probed).1) =
      [ {| VolumeName := "istio-certs";
           VolumeSrc := {| Secret := Some {|
             SecretName := "istio.default" |} |} |} ].
Proof.
  destruct (C7_certificate_volume Sample.jsonUnmarshal Sample.jsonMarshal
              Sample.paramsTLS Sample.probed
              (injectIntoPodTemplateSpec Sample.jsonUnmarshal Sample.jsonMarshal
                 Sample.paramsTLS Sample.probed).1
              probed_unmarked ltac:(vm_compute; reflexivity))
    as (mesh & sidecar & Hmesh & Hlast & Hcert).
  injection Hmesh as <-. destruct Hcert as [Hmounts Hvolumes].
  exists sidecar. split; [exact Hlast|]. split; [exact Hmounts|].
  rewrite Hvolumes. reflexivity.
Defined.

Lemma C10_injection_frame_witness :
  Labels (Meta
    (injectIntoPodTemplateSpec Sample.jsonUnmarshal Sample.jsonMarshal
       Sample.params Sample.hello).1) = {[ "app" := "hello" ]} ∧
  ∃ sidecar,
    Containers (Spec
      (injectIntoPodTemplateSpec Sample.jsonUnmarshal Sample.jsonMarshal
         Sample.params Sample.hello).1) =
      [Sample.container "hello" [Sample.http80] None None; sidecar].
Proof.
  destruct (C10_injection_frame Sample.jsonUnmarshal Sample.jsonMarshal
              Sample.params Sample.hello
              (injectIntoPodTemplateSpec Sample.jsonUnmarshal Sample.jsonMarshal
                 Sample.params Sample.hello).1
              (sample_unmarked _) ltac:(vm_compute; reflexivity))
    as (_ & Hlabels & _ & Hcontainers & _).
  split; [exact Hlabels|exact Hcontainers].
Defined.

Lemma C1_resolution_error_is_fatal_witness :
  (injectIntoPodTemplateSpec Sample.jsonUnmarshal Sample.jsonMarshal
     Sample.params Sample.unmatched).2 ≠ Returned None ∧
  ∃ errs,
    ErrMissingNamedPort (FromString "admin") ∈ errs ∧
    (injectIntoPodTemplateSpec Sample.jsonUnmarshal Sample.jsonMarshal
       Sample.params Sample.unmatched).2 = Returned (Some (ErrMulti errs)).
Proof.
  destruct (C1_resolution_error_is_fatal Sample.jsonUnmarshal
              Sample.jsonMarshal Sample.params Sample.unmatched
              (ErrMissingNamedPort (FromString "admin"))
              (sample_unmarked _)
              ltac:(apply list_elem_of_In; vm_compute; left; reflexivity))
    as (Hfails & _ & Herror).
  split; [exact Hfails|].
  destruct (Herror Sample.mesh []
              (list_byte_of_string (Sample.jsonEncode (JArray
                 (initContainerEntries Sample.params Sample.mesh []))))
              eq_refl eq_refl eq_refl)
    as (errs & Hin & _ & Hreturned).
  exists errs. split; [exact Hin|exact Hreturned].
Defined.

(** C1 as stated fails. The liveness probe of the sample template names the
    port [admin], which its container does not declare, and its readiness
    probe names the declared port [http]: the resolver returns port 80 next
    to the missing-named-port error, and the mutator returns that error
    instead of success, without appending the sidecar. *)
Lemma C1_counterexample :
  ¬ hasMarker Sample.unmatched ∧
  healthPorts Sample.unmatched =
    ([80], Some (ErrMulti [ErrMissingNamedPort (FromString "admin")])) ∧
  (injectIntoPodTemplateSpec Sample.jsonUnmarshal Sample.jsonMarshal
     Sample.params Sample.unmatched).2 =
    Returned (Some (ErrMulti [ErrMissingNamedPort (FromString "admin")])) ∧
  (injectIntoPodTemplateSpec Sample.jsonUnmarshal Sample.jsonMarshal
     Sample.params Sample.unmatched).2 ≠ Returned None ∧
  Containers (Spec
    (injectIntoPodTemplateSpec Sample.jsonUnmarshal Sample.jsonMarshal
       Sample.params Sample.unmatched).1) =
    Containers (Spec Sample.unmatched).
Proof.
  split_and!.
  - apply sample_unmarked.
  - vm_compute. reflexivity.
  - vm_compute. reflexivity.
  - vm_compute. discriminate.
  - vm_compute. reflexivity.
Qed.

(** ** The document stream processor: proofs *)

Lemma kinds_unrecognized (kind : string) :
  kind ∉ ["Job"; "DaemonSet"; "ReplicaSet"; "Deployment";
          "ReplicationController"] ↔
  kinds kind = None.
Proof.
  unfold kinds. rewrite !not_elem_of_cons.
  repeat (destruct (decide (kind = _)); [naive_solver|]).
  split; [done|]. intros _. split_and!; try done. apply not_elem_of_nil.
Qed.

Section StreamProperties.

Variable jsonUnmarshal : list byte → Error + list JSON.
Variable jsonMarshal : list JSON → Error + list byte.
Variable yamlUnmarshalMeta : list byte → Error + TypeMeta.
Variable yamlUnmarshal : ∀ k : WorkloadKind, list byte → Error + typ k.
Variable yamlMarshal : ∀ k : WorkloadKind, typ k → Error + list byte.

Local Abbreviation inject := (inject jsonUnmarshal jsonMarshal).
Local Abbreviation updatedDocument :=
  (updatedDocument jsonUnmarshal jsonMarshal
     yamlUnmarshalMeta yamlUnmarshal yamlMarshal).
Local Abbreviation IntoResourceFile :=
  (IntoResourceFile jsonUnmarshal jsonMarshal
     yamlUnmarshalMeta yamlUnmarshal yamlMarshal (W := list byte)).

(** On an object whose template carries the marker, the injector of its kind
    returns success and the object as it was decoded. *)
Lemma inject_marked_object (p : Params) (k : WorkloadKind) (o : typ k)
    (t : PodTemplateSpec) :
  podTemplate k o = Some t → hasMarker t → inject p k o = (o, Returned None).
Proof.
  intros Ht Hmarked.
  destruct k; simpl in *; simplify_eq;
    try (rewrite inject_marked by done; by destruct o).
  rewrite Ht, inject_marked by done. destruct o; simpl in *. by subst.
Qed.

(** One turn of the loop, when writing into a buffer. *)
Lemma IntoResourceFile_document (p : Params) (raw : list byte)
    (reads : list (Error + list byte)) (out : list byte) :
  IntoResourceFile p (inr raw :: reads) out =
    match updatedDocument p raw with
    | inl r => (out, r)
    | inr updated => IntoResourceFile p reads (out ++ updated ++ separator)
    end.
Proof.
  simpl. destruct (updatedDocument p raw) as [r|updated]; [done|].
  unfold Write, bufferWriter. by rewrite <- app_assoc.
Qed.

(** The loop is left early only with an error or a panic. *)
Lemma updatedDocument_early (p : Params) (raw : list byte) (r : Outcome) :
  updatedDocument p raw = inl r → r ≠ Returned None.
Proof.
  unfold updatedDocument.
  destruct (yamlUnmarshalMeta raw) as [?|meta]; [by intros [= <-]|].
  destruct (kinds (Kind meta)) as [kind|]; [|done].
  destruct (yamlUnmarshal kind raw) as [?|o]; [by intros [= <-]|].
  destruct (inject p kind o) as [o' [[?|]|]]; try by intros [= <-].
  destruct (yamlMarshal kind o'); [by intros [= <-]|done].
Qed.





(** C3, amended. A document of a recognized workload kind whose pod template
    carries the marker is decoded, left as decoded, and encoded again: what
    is emitted is the encoding of the decoded object, followed by the
    separator line, and the processor stops with the error of the encoder
    when the encoding fails. The bytes read are not what is written. *)
Theorem C3_injected_document_is_reencoded (p : Params) (raw : list byte)
    (meta : TypeMeta) (kind : WorkloadKind) (o : typ kind)
    (t : PodTemplateSpec) (reads : list (Error + list byte))
    (out : list byte) :
  yamlUnmarshalMeta raw = inr meta →
  kinds (Kind meta) = Some kind →
  yamlUnmarshal kind raw = inr o →
  podTemplate kind o = Some t →
  hasMarker t →
  IntoResourceFile p (inr raw :: reads) out =
    match yamlMarshal kind o with
    | inl err => (out, Returned (Some err))
    | inr updated => IntoResourceFile p reads (out ++ updated ++ separator)
    end.
Proof.
  intros Hmeta Hkind Ho Ht Hmarked.
  rewrite IntoResourceFile_document. unfold updatedDocument.
  rewrite Hmeta, Hkind, Ho, (inject_marked_object p kind o t) by done.
  by destruct (yamlMarshal kind o).
Qed.

End StreamProperties.

(** ** The document stream processor on the sample documents *)



Lemma C3_injected_document_is_reencoded_witness :
  IntoResourceFile Sample.jsonUnmarshal Sample.jsonMarshal
    Sample.yamlUnmarshalMeta Sample.yamlUnmarshal Sample.yamlMarshal
    Sample.params [inr Sample.commented] [] =
  (Sample.canonical ++ separator, Returned None).
Proof.
  refine (C3_injected_document_is_reencoded
            Sample.jsonUnmarshal Sample.jsonMarshal
            Sample.yamlUnmarshalMeta Sample.yamlUnmarshal Sample.yamlMarshal
            Sample.params Sample.commented
            {| Kind := "Deployment"; APIVersion := "extensions/v1beta1" |}
            KDeployment Sample.deployment
            (DeploymentTemplate Sample.deployment) [] [] _ _ _ _ _).
  - vm_compute. reflexivity.
  - vm_compute. reflexivity.
  - vm_compute. reflexivity.
  - reflexivity.
  - exists "injected". reflexivity.
Defined.

(** C3 as stated fails. The sample deployment carries the marker and is
    written under a comment line. The processor decodes it, finds it
    injected, and emits the encoding of the decoded object, which has no
    comment line: the bytes emitted differ from the bytes read. *)
Lemma C3_counterexample :
  Sample.yamlUnmarshalMeta Sample.commented =
    inr {| Kind := "Deployment"; APIVersion := "extensions/v1beta1" |} ∧
  Sample.yamlUnmarshal KDeployment Sample.commented =
    inr Sample.deployment ∧
  hasMarker (DeploymentTemplate Sample.deployment) ∧
  IntoResourceFile Sample.jsonUnmarshal Sample.jsonMarshal
    Sample.yamlUnmarshalMeta Sample.yamlUnmarshal Sample.yamlMarshal
    Sample.params [inr Sample.commented] [] =
    (Sample.canonical ++ separator, Returned None) ∧
  IntoResourceFile Sample.jsonUnmarshal Sample.jsonMarshal
    Sample.yamlUnmarshalMeta Sample.yamlUnmarshal Sample.yamlMarshal
    Sample.params [inr Sample.commented] [] ≠
    (Sample.commented ++ separator, Returned None).
Proof.
  split_and!.
  - vm_compute. reflexivity.
  - vm_compute. reflexivity.
  - exists "injected". reflexivity.
  - vm_compute. reflexivity.
  - vm_compute. discriminate.
Qed.

(** ** Further properties of the health port resolver *)

Lemma resolvePort_find (c : Container) (port : IntOrString) :
  Typ port = intstr_String →
  match find (λ named, bool_decide (PortName named = StrVal port))
             (ContainerPorts c) with
  | Some named =>
    named ∈ ContainerPorts c ∧ PortName named = StrVal port ∧
    resolvePort c port = inr (PortContainerPort named)
  | None =>
    (∀ named, named ∈ ContainerPorts c → PortName named ≠ StrVal port) ∧
    resolvePort c port = inl (ErrMissingNamedPort port)
  end.
Proof.
  intros Hty. unfold resolvePort. rewrite Hty. simpl.
  destruct (find _ _) as [named|] eqn:Hfind.
  - apply find_some in Hfind as [Hin Hname].
    apply list_elem_of_In in Hin. by apply bool_decide_eq_true in Hname.
  - split; [|done]. intros named Hin%list_elem_of_In.
    pose proof (find_none _ _ Hfind _ Hin) as Hname. simpl in Hname.
    by apply bool_decide_eq_false in Hname.
Qed.

(** X1. What [resolvePort] returns, read backwards. A port it returns is the
    integer value of a port of integer type, or the container port of a port
    that the container at hand declares under the name asked for. An error it
    returns is the missing-named-port error, for a name that no declared port
    of the container carries, or the incorrect-type error, for a port whose
    type tag is neither integer nor string. *)
Theorem X1_resolvePort_sound (c : Container) (port : IntOrString) :
  match resolvePort c port with
  | inr n =>
    (Typ port = intstr_Int ∧ n = IntVal port) ∨
    (Typ port = intstr_String ∧
     ∃ named, named ∈ ContainerPorts c ∧ PortName named = StrVal port ∧
              n = PortContainerPort named)
  | inl err =>
    (Typ port = intstr_String ∧ err = ErrMissingNamedPort port ∧
     ∀ named, named ∈ ContainerPorts c → PortName named ≠ StrVal port) ∨
    (Typ port ≠ intstr_Int ∧ Typ port ≠ intstr_String ∧
     err = ErrIncorrectPortType port)
  end.
Proof.
  destruct (decide (Typ port = intstr_Int)) as [Hint|Hint].
  { unfold resolvePort. rewrite decide_True by done. by left. }
  destruct (decide (Typ port = intstr_String)) as [Hstr|Hstr].
  - pose proof (resolvePort_find c port Hstr) as Hfind.
    destruct (find _ _) as [named|].
    + destruct Hfind as (Hin & Hname & ->). right. split; [done|].
      by exists named.
    + destruct Hfind as (Hnone & ->). by left.
  - unfold resolvePort. rewrite !decide_False by done. by right.
Qed.

Lemma elem_of_resolutions (cs : list Container) (r : Error + Z) :
  r ∈ resolutions cs ↔
  ∃ c port, c ∈ cs ∧ port ∈ probePorts c ∧ resolvePort c port = r.
Proof.
  unfold resolutions. rewrite list_elem_of_bind. split.
  - intros (c & Hr & Hc). apply list_elem_of_fmap in Hr as (port & -> & Hport).
    by exists c, port.
  - intros (c & port & Hc & Hport & <-). exists c. split; [|done].
    apply list_elem_of_fmap. by exists port.
Qed.

(** X2. Where the ports of [healthPorts] come from. Every port returned is
    the port of an HTTP-get probe of some container of the template: the
    integer the probe gives, or the container port that this same container
    declares under the name the probe gives. *)
Theorem X2_healthPorts_origin (t : PodTemplateSpec) (n : Z) :
  n ∈ (healthPorts t).1 →
  ∃ c port,
    c ∈ Containers (Spec t) ∧ port ∈ probePorts c ∧
    ((Typ port = intstr_Int ∧ IntVal port = n) ∨
     (Typ port = intstr_String ∧
      ∃ named, named ∈ ContainerPorts c ∧ PortName named = StrVal port ∧
               PortContainerPort named = n)).
Proof.
  rewrite healthPorts_resolved, elem_of_resolutions.
  intros (c & port & Hc & Hport & Hr). exists c, port.
  split; [done|]. split; [done|].
  destruct (decide (Typ port = intstr_Int)) as [Hint|Hint].
  { left. split; [done|]. unfold resolvePort in Hr.
    rewrite decide_True in Hr by done. by simplify_eq. }
  destruct (decide (Typ port = intstr_String)) as [Hstr|Hstr].
  - right. split; [done|].
    pose proof (resolvePort_find c port Hstr) as Hfind.
    destruct (find _ _) as [named|].
    + destruct Hfind as (Hin & Hname & Heq). exists named.
      rewrite Heq in Hr. by simplify_eq.
    + destruct Hfind as (_ & Heq). by rewrite Heq in Hr.
  - unfold resolvePort in Hr. by rewrite !decide_False in Hr by done.
Qed.

Lemma X2_healthPorts_origin_witness :
  ∃ c port,
    c ∈ Containers (Spec Sample.probed) ∧ port ∈ probePorts c ∧
    ((Typ port = intstr_Int ∧ IntVal port = 8080) ∨
     (Typ port = intstr_String ∧
      ∃ named, named ∈ ContainerPorts c ∧ PortName named = StrVal port ∧
               PortContainerPort named = 8080)).
Proof.
  apply (X2_healthPorts_origin Sample.probed 8080).
  apply (bool_decide_unpack _). vm_compute. exact I.
Defined.

Lemma resolutions_Permutation (cs cs' : list Container) :
  cs ≡ₚ cs' → resolutions cs ≡ₚ resolutions cs'.
Proof. intros Hp. unfold resolutions. by rewrite Hp. Qed.

(** X3. The order of the containers does not matter to the ports. Two
    templates whose containers are the same up to their order get the same
    list of health ports, and the resolver reports an error for the one
    exactly when it reports an error for the other. *)
Theorem X3_healthPorts_container_order (t t' : PodTemplateSpec) :
  Containers (Spec t) ≡ₚ Containers (Spec t') →
  (healthPorts t).1 = (healthPorts t').1 ∧
  ((healthPorts t).2 = None ↔ (healthPorts t').2 = None).
Proof.
  intros Hp%resolutions_Permutation. split.
  - rewrite !healthPorts_ports. f_equal. f_equal.
    apply set_eq. intros n. rewrite !elem_of_list_to_set.
    unfold resolvedPorts. by rewrite Hp.
  - rewrite !healthPorts_error.
    assert (resolutionErrors (resolutions (Containers (Spec t))) ≡ₚ
            resolutionErrors (resolutions (Containers (Spec t')))) as He
      by (unfold resolutionErrors; by rewrite Hp).
    destruct (resolutionErrors (resolutions (Containers (Spec t))));
      destruct (resolutionErrors (resolutions (Containers (Spec t'))));
      simpl; try done.
    + by apply Permutation_nil_cons in He.
    + symmetry in He. by apply Permutation_nil_cons in He.
Qed.

Lemma X3_healthPorts_container_order_witness :
  (healthPorts Sample.probed).1 =
  (healthPorts
     (setContainers Sample.probed (reverse (Containers (Spec Sample.probed))))).1.
Proof.
  apply (X3_healthPorts_container_order Sample.probed
           (setContainers Sample.probed
              (reverse (Containers (Spec Sample.probed))))).
  simpl. symmetry. apply reverse_Permutation.
Defined.

Lemma healthPorts_no_error (t : PodTemplateSpec) :
  (healthPorts t).2 = None ↔ allProbesResolve (Containers (Spec t)).
Proof.
  rewrite healthPorts_error. unfold allProbesResolve. split.
  - intros Hnone c port Hc Hport.
    destruct (resolvePort c port) as [err|n] eqn:Hr; [|by exists n].
    assert (err ∈ resolutionErrors (resolutions (Containers (Spec t))))
      as Hin.
    { apply elem_of_resolutionErrors, elem_of_resolutions. by exists c, port. }
    destruct (resolutionErrors _); [by apply elem_of_nil in Hin|done].
  - intros Hall.
    destruct (resolutionErrors _) as [|err errs] eqn:He; [done|].
    assert (err ∈ resolutionErrors (resolutions (Containers (Spec t))))
      as Hin by (rewrite He; left).
    apply elem_of_resolutionErrors, elem_of_resolutions in Hin
      as (c & port & Hc & Hport & Hr).
    destruct (Hall c port Hc Hport) as [n Hn]. by rewrite Hn in Hr.
Qed.

(** X4. When the resolver reports no error. The error of [healthPorts] is nil
    exactly when every HTTP-get probe port of every container resolves. In
    particular a template none of whose containers has an HTTP-get probe, or
    that has no container at all, gets no port and no error. *)
Theorem X4_healthPorts_error_free (t : PodTemplateSpec) :
  ((healthPorts t).2 = None ↔ allProbesResolve (Containers (Spec t))) ∧
  ((∀ c, c ∈ Containers (Spec t) → probePorts c = []) →
   healthPorts t = ([], None)).
Proof.
  split; [apply healthPorts_no_error|].
  intros Hnone.
  assert (resolutions (Containers (Spec t)) = []) as Hres.
  { unfold resolutions.
    induction (Containers (Spec t)) as [|c cs IH]; [done|]. simpl.
    rewrite (Hnone c) by left. simpl. apply IH.
    intros c' Hc'. apply Hnone. by right. }
  apply injective_projections.
  - rewrite healthPorts_ports, Hres. reflexivity.
  - rewrite healthPorts_error, Hres. reflexivity.
Qed.

Lemma X4_healthPorts_error_free_witness :
  healthPorts Sample.hello = ([], None).
Proof.
  apply (proj2 (X4_healthPorts_error_free Sample.hello)).
  intros c Hc. apply list_elem_of_singleton in Hc as ->. reflexivity.
Defined.

(** ** Further properties of the sidecar mutator *)

Lemma visitContainer_no_probe (st : gset Z * list Error) (c : Container) :
  LivenessProbe c = None → ReadinessProbe c = None → visitContainer st c = st.
Proof. intros Hl Hr. unfold visitContainer. by rewrite Hl, Hr. Qed.

Lemma healthPorts_snoc_no_probe (t t' : PodTemplateSpec) (c : Container) :
  Containers (Spec t') = Containers (Spec t) ++ [c] →
  LivenessProbe c = None → ReadinessProbe c = None →
  healthPorts t' = healthPorts t.
Proof.
  intros Hcs Hl Hr. unfold healthPorts. rewrite Hcs.
  by rewrite fold_left_app; simpl; rewrite visitContainer_no_probe.
Qed.

Lemma healthPorts_setVolumes (t : PodTemplateSpec) (vs : list Volume) :
  healthPorts (setVolumes t vs) = healthPorts t.
Proof. reflexivity. Qed.

Section MutatorOutcomes.

Variable jsonUnmarshal : list byte → Error + list JSON.
Variable jsonMarshal : list JSON → Error + list byte.

Local Abbreviation existingInitContainers :=
  (existingInitContainers jsonUnmarshal).
Local Abbreviation existingEntries := (existingEntries jsonUnmarshal).
Local Abbreviation injectSidecar := (injectSidecar jsonUnmarshal jsonMarshal).
Local Abbreviation injectIntoPodTemplateSpec :=
  (injectIntoPodTemplateSpec jsonUnmarshal jsonMarshal).

(** The list handed to [json.Marshal], in the words of the vocabulary. *)
Lemma marshalled_entries (p : Params) (mesh : ProxyMeshConfig)
    (existing : list JSON) :
  (if EnableCoreDump p then
     (existing ++ [JObject [
        ("name", JString initContainerName);
        ("image", JString (InitImage p));
        ("args", JStrings
           (if decide (IncludeIPRanges p ≠ "")
            then ["-p"; Itoa (ProxyListenPort mesh); "-u";
                  Itoa (SidecarProxyUID p)] ++ ["-i"; IncludeIPRanges p]
            else ["-p"; Itoa (ProxyListenPort mesh); "-u";
                  Itoa (SidecarProxyUID p)]));
        ("imagePullPolicy", JString "Always");
        ("securityContext", JObject [
           ("capabilities", JObject [("add", JStrings ["NET_ADMIN"])])])
      ]]) ++ [enableCoreDumpContainer]
   else
     existing ++ [JObject [
        ("name", JString initContainerName);
        ("image", JString (InitImage p));
        ("args", JStrings
           (if decide (IncludeIPRanges p ≠ "")
            then ["-p"; Itoa (ProxyListenPort mesh); "-u";
                  Itoa (SidecarProxyUID p)] ++ ["-i"; IncludeIPRanges p]
            else ["-p"; Itoa (ProxyListenPort mesh); "-u";
                  Itoa (SidecarProxyUID p)]));
        ("imagePullPolicy", JString "Always");
        ("securityContext", JObject [
           ("capabilities", JObject [("add", JStrings ["NET_ADMIN"])])])
      ]]) = initContainerEntries p mesh existing.
Proof.
  unfold initContainerEntries, networkSetupEntry, initContainerName, JStrings.
  destruct (EnableCoreDump p), (decide (IncludeIPRanges p ≠ "")),
    (decide (IncludeIPRanges p = "")); try done; by rewrite <- ?app_assoc.
Qed.

(** The run of the mutator on a template without the marker, step by step:
    which step ends it, with which outcome, and what the template then
    holds. *)
Lemma inject_steps (p : Params) (t : PodTemplateSpec) :
  ¬ hasMarker t →
  match existingEntries t with
  | inl err =>
    injectIntoPodTemplateSpec p t =
      (setAnnotations t (markedAnnotations p t), Returned (Some err))
  | inr existing =>
    match Mesh p with
    | None =>
      injectIntoPodTemplateSpec p t =
        (setAnnotations t (markedAnnotations p t), Panicked)
    | Some mesh =>
      match jsonMarshal (initContainerEntries p mesh existing) with
      | inl err =>
        injectIntoPodTemplateSpec p t =
          (setAnnotations t (markedAnnotations p t), Returned (Some err))
      | inr value =>
        match (healthPorts t).2 with
        | Some err =>
          injectIntoPodTemplateSpec p t =
            (setAnnotations t
               (<[initContainersAnnotationKey := string_of_list_byte value]>
                  (markedAnnotations p t)),
             Returned (Some err))
        | None =>
          (injectIntoPodTemplateSpec p t).2 = Returned None ∧
          Annotations (Meta (injectIntoPodTemplateSpec p t).1) =
            Some (<[initContainersAnnotationKey :=
                      string_of_list_byte value]> (markedAnnotations p t))
        end
      end
    end
  end.
Proof.
  intros Hno. rewrite inject_unmarked by done.
  assert (existingInitContainers (markedAnnotations p t) = existingEntries t)
    as Hentries by apply existingInitContainers_unmarked.
  unfold injectSidecar. fold (markedAnnotations p t). rewrite Hentries.
  destruct (existingEntries t) as [err|existing]; [done|].
  destruct (Mesh p) as [mesh|]; [|done].
  cbv zeta. rewrite marshalled_entries.
  destruct (jsonMarshal _) as [err|value]; [done|].
  rewrite !healthPorts_setAnnotations.
  destruct (healthPorts t) as [ports [err|]]; [done|]. simpl.
  by destruct (decide (AuthPolicy mesh = AuthMUTUAL_TLS)).
Qed.

Lemma markedAnnotations_other (p : Params) (t : PodTemplateSpec)
    (key : string) :
  key ≠ istioSidecarAnnotationSidecarKey →
  key ≠ istioSidecarAnnotationVersionKey →
  markedAnnotations p t !! key = annotation t key.
Proof.
  intros Hs Hv. unfold markedAnnotations, annotation.
  rewrite !lookup_insert_ne by done.
  destruct (Annotations (Meta t)); simpl; [done|]. apply lookup_empty.
Qed.



(** X6. A failing encoder. When the template has no marker, its existing
    entries decode and the mesh configuration is present, but the new list of
    entries does not encode, the mutator returns the error of the encoder;
    the pod spec and the init-containers annotation are as they were. *)
Theorem X6_encode_error_is_returned (p : Params) (t : PodTemplateSpec)
    (mesh : ProxyMeshConfig) (existing : list JSON) (err : Error) :
  ¬ hasMarker t →
  existingEntries t = inr existing →
  Mesh p = Some mesh →
  jsonMarshal (initContainerEntries p mesh existing) = inl err →
  (injectIntoPodTemplateSpec p t).2 = Returned (Some err) ∧
  Spec (injectIntoPodTemplateSpec p t).1 = Spec t ∧
  annotation (injectIntoPodTemplateSpec p t).1
    "pod.beta.kubernetes.io/init-containers" =
    annotation t "pod.beta.kubernetes.io/init-containers".
Proof.
  intros Hno Hexisting Hmesh Herr.
  pose proof (inject_steps p t Hno) as Hsteps.
  rewrite Hexisting, Hmesh, Herr in Hsteps.
  rewrite Hsteps. split_and!; [done|done|].
  unfold annotation at 1. simpl. by rewrite markedAnnotations_other.
Qed.

(** The by-value function panics on a nil mesh configuration only. *)
Lemma inject_panics (p : Params) (t : PodTemplateSpec) :
  (injectIntoPodTemplateSpec p t).2 = Panicked ↔
  ¬ hasMarker t ∧ Mesh p = None ∧ ∃ existing, existingEntries t = inr existing.
Proof.
  destruct (decide (hasMarker t)) as [Hm|Hno].
  { rewrite inject_marked by done. simpl. naive_solver. }
  pose proof (inject_steps p t Hno) as Hsteps.
  destruct (existingEntries t) as [err|existing].
  { rewrite Hsteps. simpl. naive_solver. }
  destruct (Mesh p) as [mesh|].
  - assert ((injectIntoPodTemplateSpec p t).2 ≠ Panicked) as Hnp.
    { destruct (jsonMarshal _) as [err|value]; [by rewrite Hsteps|].
      destruct (healthPorts t).2; [by rewrite Hsteps|].
      destruct Hsteps as [-> _]. done. }
    naive_solver.
  - rewrite Hsteps. simpl. naive_solver.
Qed.

(** X7. When the mutator panics, on the pointers it receives. It panics
    exactly when the template pointer is nil, or the template has no marker
    and either the parameters pointer is nil, or the init-containers
    annotation is absent or decodes and the mesh configuration of the
    parameters is a nil pointer. On a template that carries the marker it
    reads neither the parameters nor the mesh configuration and does not
    panic. *)
Theorem X7_panic_iff_nil_pointer (p : option Params)
    (t : option PodTemplateSpec) :
  (injectIntoPodTemplateSpecPtr jsonUnmarshal jsonMarshal p t).2 = Panicked ↔
  t = None ∨
  ∃ template,
    t = Some template ∧ ¬ hasMarker template ∧
    (p = None ∨
     ∃ params,
       p = Some params ∧ Mesh params = None ∧
       ∃ existing, existingEntries template = inr existing).
Proof.
  destruct t as [template|]; simpl; [|naive_solver].
  destruct p as [params|].
  - pose proof (inject_panics params template) as Hpanics.
    destruct (injectIntoPodTemplateSpec params template) as [t' r].
    simpl in *. rewrite Hpanics. naive_solver.
  - unfold hasMarker.
    destruct (annotation template istioSidecarAnnotationSidecarKey) eqn:Hk;
      simpl.
    + split; [done|]. intros [?|(? & ? & Hno & _)]; [done|]. simplify_eq.
      destruct Hno. rewrite Hk. by eexists.
    + split; [|done]. intros _. right. exists template.
      split; [done|]. split; [|by left]. rewrite Hk. by intros [? ?].
Qed.

(** X8. When the mutator succeeds on a template without the marker: exactly
    when the mesh configuration is present, the init-containers annotation is
    absent or decodes, the new list of entries encodes, and every HTTP-get
    probe port of every container resolves. *)
Theorem X8_success_iff (p : Params) (t : PodTemplateSpec) :
  ¬ hasMarker t →
  ((injectIntoPodTemplateSpec p t).2 = Returned None ↔
   ∃ mesh existing value,
     Mesh p = Some mesh ∧
     existingEntries t = inr existing ∧
     jsonMarshal (initContainerEntries p mesh existing) = inr value ∧
     allProbesResolve (Containers (Spec t))).
Proof.
  intros Hno. pose proof (inject_steps p t Hno) as Hsteps.
  setoid_rewrite <- healthPorts_no_error.
  destruct (existingEntries t) as [err|existing].
  { rewrite Hsteps. simpl. naive_solver. }
  destruct (Mesh p) as [mesh|]; [|rewrite Hsteps; simpl; naive_solver].
  destruct (jsonMarshal _) as [err|value] eqn:Hvalue.
  { rewrite Hsteps. simpl. split; [done|].
    intros (mesh' & existing' & value' & ? & ? & Hv & _). simplify_eq.
    by rewrite Hvalue in Hv. }
  destruct (healthPorts t).2 eqn:Hports.
  - rewrite Hsteps. simpl. naive_solver.
  - destruct Hsteps as [-> _]. split; [|done]. intros _.
    by exists mesh, existing, value.
Qed.

(** X9. What a failed injection leaves behind. Whenever the mutator does not
    return success, the pod spec, the name and the labels of the template are
    as they were; the template nevertheless carries the marker, so a second
    run, under whatever parameters, returns success without adding the
    sidecar and leaves the template as the failed run left it. *)
Theorem X9_failure_leaves_marked_template (p q : Params)
    (t : PodTemplateSpec) :
  (injectIntoPodTemplateSpec p t).2 ≠ Returned None →
  Spec (injectIntoPodTemplateSpec p t).1 = Spec t ∧
  MetaName (Meta (injectIntoPodTemplateSpec p t).1) = MetaName (Meta t) ∧
  Labels (Meta (injectIntoPodTemplateSpec p t).1) = Labels (Meta t) ∧
  hasMarker (injectIntoPodTemplateSpec p t).1 ∧
  injectIntoPodTemplateSpec q (injectIntoPodTemplateSpec p t).1 =
    ((injectIntoPodTemplateSpec p t).1, Returned None).
Proof.
  intros Hfail.
  assert (hasMarker (injectIntoPodTemplateSpec p t).1) as Hmarked
    by apply inject_marks.
  split_and!; [| | |done|by apply inject_marked].
  all: destruct (decide (hasMarker t)) as [Hm|Hno];
    [by rewrite inject_marked in Hfail by done|].
  all: pose proof (inject_steps p t Hno) as Hsteps.
  all: destruct (existingEntries t) as [err|existing];
    [by rewrite Hsteps|].
  all: destruct (Mesh p) as [mesh|]; [|by rewrite Hsteps].
  all: destruct (jsonMarshal _) as [err|value]; [by rewrite Hsteps|].
  all: destruct (healthPorts t).2; [by rewrite Hsteps|].
  all: by destruct Hsteps as [? _].
Qed.


(** X11. The sidecar container apart from its arguments and mounts. After a
    successful injection into a template without the marker, the last
    container runs the configured proxy image with no command of its own, has
    the always-pull policy, declares no port and no probe, takes [POD_NAME],
    [POD_NAMESPACE] and [POD_IP] from the pod fields [metadata.name],
    [metadata.namespace] and [status.podIP], and runs as the configured user
    without added capabilities or the privileged flag. *)
Theorem X11_sidecar_container (p : Params) (t t' : PodTemplateSpec) :
  ¬ hasMarker t →
  injectIntoPodTemplateSpec p t = (t', Returned None) →
  ∃ sidecar,
    last (Containers (Spec t')) = Some sidecar ∧
    ContainerImage sidecar = ProxyImage p ∧
    ContainerCommand sidecar = [] ∧
    ImagePullPolicy sidecar = "Always" ∧
    ContainerPorts sidecar = [] ∧
    LivenessProbe sidecar = None ∧
    ReadinessProbe sidecar = None ∧
    (λ e, (EnvName e, EnvValue e, EnvValueFrom e)) <$> ContainerEnv sidecar =
      [ ("POD_NAME", "",
         Some {| FieldRef := Some {| FieldPath := "metadata.name" |} |});
        ("POD_NAMESPACE", "",
         Some {| FieldRef := Some {| FieldPath := "metadata.namespace" |} |});
        ("POD_IP", "",
         Some {| FieldRef := Some {| FieldPath := "status.podIP" |} |}) ] ∧
    ContainerSecurityContext sidecar =
      Some {| CapabilitiesAdd := [];
              Privileged := None;
              RunAsUser := Some (SidecarProxyUID p) |}.
Proof.
  intros Hno H. rewrite inject_unmarked in H by done.
  unfold injectSidecar in H.
  destruct (existingInitContainers _) as [?|decoded]; [discriminate H|].
  destruct (Mesh p) as [mesh|]; [|discriminate H].
  destruct (jsonMarshal _) as [?|value]; [discriminate H|].
  destruct (healthPorts _) as [ports [?|]]; [discriminate H|].
  destruct (decide (AuthPolicy mesh = AuthMUTUAL_TLS));
    injection H as <-; eexists; (split; [apply last_snoc|]); by split_and!.
Qed.

(** X12. Injection does not change the health ports. Whatever the outcome,
    the resolver returns for the template the mutator leaves the ports and
    the error it returns for the template the mutator was given: the sidecar
    contributes no port. *)
Theorem X12_healthPorts_after_injection (p : Params) (t : PodTemplateSpec) :
  healthPorts (injectIntoPodTemplateSpec p t).1 = healthPorts t.
Proof.
  destruct (decide (hasMarker t)) as [Hm|Hno]; [by rewrite inject_marked|].
  rewrite inject_unmarked by done. unfold injectSidecar.
  destruct (existingInitContainers _) as [?|decoded]; [done|].
  destruct (Mesh p) as [mesh|]; [|done].
  destruct (jsonMarshal _) as [?|value]; [done|].
  rewrite !healthPorts_setAnnotations.
  destruct (healthPorts t) as [ports [?|]] eqn:Hports; [done|].
  rewrite <- Hports.
  destruct (decide (AuthPolicy mesh = AuthMUTUAL_TLS));
    by eapply healthPorts_snoc_no_probe.
Qed.

End MutatorOutcomes.

(** ** The outcomes of the mutator on the sample templates *)



Lemma X6_encode_error_is_returned_witness :
  (injectIntoPodTemplateSpec Sample.jsonUnmarshal Sample.failingMarshal
     Sample.params Sample.hello).2 =
    Returned (Some (ErrLibrary "json: unsupported type")) ∧
  Spec (injectIntoPodTemplateSpec Sample.jsonUnmarshal Sample.failingMarshal
          Sample.params Sample.hello).1 = Spec Sample.hello.
Proof.
  destruct (X6_encode_error_is_returned Sample.jsonUnmarshal
              Sample.failingMarshal Sample.params Sample.hello Sample.mesh []
              (ErrLibrary "json: unsupported type") (sample_unmarked _)
              eq_refl eq_refl eq_refl)
    as (Hreturned & Hspec & _).
  split; [exact Hreturned|exact Hspec].
Defined.

Lemma X7_panic_iff_nil_pointer_witness :
  (injectIntoPodTemplateSpecPtr Sample.jsonUnmarshal Sample.jsonMarshal
     (Some Sample.params) None).2 = Panicked ∧
  (injectIntoPodTemplateSpecPtr Sample.jsonUnmarshal Sample.jsonMarshal
     None (Some Sample.hello)).2 = Panicked ∧
  (injectIntoPodTemplateSpecPtr Sample.jsonUnmarshal Sample.jsonMarshal
     (Some Sample.paramsNoMesh) (Some Sample.hello)).2 = Panicked.
Proof.
  split_and!.
  - apply (proj2 (X7_panic_iff_nil_pointer Sample.jsonUnmarshal
                    Sample.jsonMarshal (Some Sample.params) None)).
    left. reflexivity.
  - apply (proj2 (X7_panic_iff_nil_pointer Sample.jsonUnmarshal
                    Sample.jsonMarshal None (Some Sample.hello))).
    right. exists Sample.hello. split; [reflexivity|].
    split; [apply sample_unmarked|]. left. reflexivity.
  - apply (proj2 (X7_panic_iff_nil_pointer Sample.jsonUnmarshal
                    Sample.jsonMarshal (Some Sample.paramsNoMesh)
                    (Some Sample.hello))).
    right. exists Sample.hello. split; [reflexivity|].
    split; [apply sample_unmarked|]. right. exists Sample.paramsNoMesh.
    split; [reflexivity|]. split; [reflexivity|]. exists []. reflexivity.
Defined.

Lemma X8_success_iff_witness :
  (injectIntoPodTemplateSpec Sample.jsonUnmarshal Sample.jsonMarshal
     Sample.params Sample.hello).2 = Returned None.
Proof.
  apply (proj2 (X8_success_iff Sample.jsonUnmarshal Sample.jsonMarshal
                  Sample.params Sample.hello (sample_unmarked _))).
  exists Sample.mesh, [],
    (list_byte_of_string (Sample.jsonEncode (JArray
       (initContainerEntries Sample.params Sample.mesh [])))).
  split; [reflexivity|]. split; [reflexivity|]. split; [reflexivity|].
  intros c port Hc Hport. apply list_elem_of_singleton in Hc as ->.
  by apply elem_of_nil in Hport.
Defined.

Lemma X9_failure_leaves_marked_template_witness :
  Spec (injectIntoPodTemplateSpec Sample.jsonUnmarshal Sample.jsonMarshal
          Sample.params Sample.unmatched).1 = Spec Sample.unmatched ∧
  injectIntoPodTemplateSpec Sample.jsonUnmarshal Sample.jsonMarshal
    Sample.paramsTLS
    (injectIntoPodTemplateSpec Sample.jsonUnmarshal Sample.jsonMarshal
       Sample.params Sample.unmatched).1 =
    ((injectIntoPodTemplateSpec Sample.jsonUnmarshal Sample.jsonMarshal
        Sample.params Sample.unmatched).1, Returned None).
Proof.
  destruct (X9_failure_leaves_marked_template Sample.jsonUnmarshal
              Sample.jsonMarshal Sample.params Sample.paramsTLS
              Sample.unmatched ltac:(vm_compute; discriminate))
    as (Hspec & _ & _ & _ & Hretry).
  split; [exact Hspec|exact Hretry].
Defined.


Lemma X11_sidecar_container_witness :
  ∃ sidecar,
    last (Containers (Spec
      (injectIntoPodTemplateSpec Sample.jsonUnmarshal Sample.jsonMarshal
         Sample.params Sample.hello).1)) = Some sidecar ∧
    ContainerImage sidecar = "docker.io/istio/proxy_debug:unittest" ∧
    ContainerSecurityContext sidecar =
      Some {| CapabilitiesAdd := [];
              Privileged := None;
              RunAsUser := Some 1337 |}.
Proof.
  destruct (X11_sidecar_container Sample.jsonUnmarshal Sample.jsonMarshal
              Sample.params Sample.hello
              (injectIntoPodTemplateSpec Sample.jsonUnmarshal
                 Sample.jsonMarshal Sample.params Sample.hello).1
              (sample_unmarked _) ltac:(vm_compute; reflexivity))
    as (sidecar & Hlast & Himage & _ & _ & _ & _ & _ & _ & Hcontext).
  exists sidecar. split; [exact Hlast|]. split; [exact Himage|exact Hcontext].
Defined.

(** ** Further properties of the document stream processor *)

Section StreamOutcomes.

Variable jsonUnmarshal : list byte → Error + list JSON.
Variable jsonMarshal : list JSON → Error + list byte.
Variable yamlUnmarshalMeta : list byte → Error + TypeMeta.
Variable yamlUnmarshal : ∀ k : WorkloadKind, list byte → Error + typ k.
Variable yamlMarshal : ∀ k : WorkloadKind, typ k → Error + list byte.

Local Abbreviation injectIntoPodTemplateSpec :=
  (injectIntoPodTemplateSpec jsonUnmarshal jsonMarshal).
Local Abbreviation inject := (inject jsonUnmarshal jsonMarshal).
Local Abbreviation updatedDocument :=
  (updatedDocument jsonUnmarshal jsonMarshal
     yamlUnmarshalMeta yamlUnmarshal yamlMarshal).
Local Abbreviation IntoResourceFile :=
  (IntoResourceFile jsonUnmarshal jsonMarshal
     yamlUnmarshalMeta yamlUnmarshal yamlMarshal).

(** The injector of a kind acts on the embedded template alone. *)
Lemma inject_template (p : Params) (k : WorkloadKind) (o : typ k) :
  podTemplate k (inject p k o).1 =
    (λ t, (injectIntoPodTemplateSpec p t).1) <$> podTemplate k o ∧
  objectMeta k (inject p k o).1 = objectMeta k o ∧
  (inject p k o).2 =
    match podTemplate k o with
    | Some t => (injectIntoPodTemplateSpec p t).2
    | None => Panicked
    end.
Proof.
  destruct k; simpl;
    try (by destruct (injectIntoPodTemplateSpec p _)).
  destruct (ReplicationControllerTemplate o) as [t|] eqn:Ht; simpl.
  - by destruct (injectIntoPodTemplateSpec p t).
  - by rewrite Ht.
Qed.

(** X13. The kind dispatcher. The injector of a kind runs the mutator on the
    pod template the object embeds and on nothing else: the template of the
    result is the template the mutator leaves, the metadata of the object are
    unchanged, and the outcome is the outcome of the mutator. Only a
    replication controller can lack a template, and on one that does the
    injector panics. *)
Theorem X13_kind_dispatch (p : Params) (k : WorkloadKind) (o : typ k) :
  podTemplate k (inject p k o).1 =
    (λ t, (injectIntoPodTemplateSpec p t).1) <$> podTemplate k o ∧
  objectMeta k (inject p k o).1 = objectMeta k o ∧
  (inject p k o).2 =
    match podTemplate k o with
    | Some t => (injectIntoPodTemplateSpec p t).2
    | None => Panicked
    end ∧
  (podTemplate k o = None → k = KReplicationController).
Proof.
  pose proof (inject_template p k o) as (Ht & Hmeta & Hout).
  split_and!; [done|done|done|]. by destruct k.
Qed.

(** Processing a stream in two parts. *)
Lemma IntoResourceFile_app `{Writer W} (p : Params)
    (reads1 reads2 : list (Error + list byte)) (out : W) :
  IntoResourceFile p (reads1 ++ reads2) out =
    match IntoResourceFile p reads1 out with
    | (out1, Returned None) => IntoResourceFile p reads2 out1
    | stopped => stopped
    end.
Proof.
  revert out. induction reads1 as [|[err|raw] reads1 IH]; intros out; simpl.
  - done.
  - done.
  - destruct (updatedDocument p raw) as [r|updated] eqn:Hupdated.
    + apply updatedDocument_early in Hupdated. by destruct r as [[?|]|].
    + destruct (Write out updated) as [out1 [err|]]; [done|].
      destruct (Write out1 separator) as [out2 [err|]]; [done|].
      apply IH.
Qed.

(** X14. Streams compose. Processing the documents of two streams one after
    the other, into whatever writer, is processing the first stream and, when
    that returns success, processing the second into the writer as the first
    left it; when the first stream stops with an error or a panic, the second
    is not read and the result is that of the first. *)
Theorem X14_stream_composition `{Writer W} (p : Params)
    (reads1 reads2 : list (Error + list byte)) (out : W) :
  IntoResourceFile p (reads1 ++ reads2) out =
    match IntoResourceFile p reads1 out with
    | (out1, Returned None) => IntoResourceFile p reads2 out1
    | stopped => stopped
    end.
Proof. apply IntoResourceFile_app. Qed.

(** X15. Every way a stream is cut short. After documents that were
    processed with success, the first failure ends the run, the documents
    after it are not read, and the writer holds what the earlier documents
    produced: a read error is returned as it is; a document that fails to
    decode, to inject or to encode returns that outcome and writes nothing; a
    failed write of the document returns the error of the writer without
    writing the separator; a failed write of the separator returns that
    error. *)
Theorem X15_stream_abort `{Writer W} (p : Params)
    (before after : list (Error + list byte)) (out out1 : W) :
  IntoResourceFile p before out = (out1, Returned None) →
  (∀ err,
     IntoResourceFile p (before ++ inl err :: after) out =
       (out1, Returned (Some err))) ∧
  (∀ raw r,
     updatedDocument p raw = inl r →
     IntoResourceFile p (before ++ inr raw :: after) out = (out1, r)) ∧
  (∀ raw updated out2 err,
     updatedDocument p raw = inr updated →
     Write out1 updated = (out2, Some err) →
     IntoResourceFile p (before ++ inr raw :: after) out =
       (out2, Returned (Some err))) ∧
  (∀ raw updated out2 out3 err,
     updatedDocument p raw = inr updated →
     Write out1 updated = (out2, None) →
     Write out2 separator = (out3, Some err) →
     IntoResourceFile p (before ++ inr raw :: after) out =
       (out3, Returned (Some err))).
Proof.
  intros Hbefore. split_and!.
  - intros err. by rewrite IntoResourceFile_app, Hbefore.
  - intros raw r Hr. rewrite IntoResourceFile_app, Hbefore. simpl.
    by rewrite Hr.
  - intros raw updated out2 err Hu Hw.
    rewrite IntoResourceFile_app, Hbefore. simpl. by rewrite Hu, Hw.
  - intros raw updated out2 out3 err Hu Hw Hs.
    rewrite IntoResourceFile_app, Hbefore. simpl. by rewrite Hu, Hw, Hs.
Qed.

(** After a successful run of the injector of a kind, the object embeds a
    template that carries the marker. *)
Lemma inject_success_marked (p : Params) (k : WorkloadKind) (o o' : typ k) :
  inject p k o = (o', Returned None) →
  ∃ t', podTemplate k o' = Some t' ∧ hasMarker t'.
Proof.
  intros Hinj. pose proof (inject_template p k o) as (Ht & _ & Hout).
  rewrite Hinj in Ht, Hout. simpl in Ht, Hout.
  destruct (podTemplate k o) as [t|]; [|done]. simpl in Ht.
  eexists. split; [done|]. apply inject_marks.
Qed.

(** A document the processor emitted is emitted unchanged when it is
    processed again, provided decoding undoes encoding. *)
Lemma updatedDocument_again (p q : Params) (raw updated : list byte) :
  (∀ k o b,
     yamlMarshal k o = inr b →
     ∃ meta, yamlUnmarshalMeta b = inr meta ∧
             kinds (Kind meta) = Some k ∧
             yamlUnmarshal k b = inr o) →
  updatedDocument p raw = inr updated →
  updatedDocument q updated = inr updated.
Proof.
  intros Hcodec Hup. unfold updatedDocument in Hup.
  destruct (yamlUnmarshalMeta raw) as [?|meta] eqn:Hmeta; [done|].
  destruct (kinds (Kind meta)) as [k|] eqn:Hkind.
  - destruct (yamlUnmarshal k raw) as [?|o]; [done|].
    destruct (inject p k o) as [o' [[?|]|]] eqn:Hinj; try done.
    destruct (yamlMarshal k o') as [?|b] eqn:Hb; [done|]. simplify_eq.
    destruct (Hcodec k o' updated Hb) as (meta' & Hmeta' & Hkind' & Ho').
    apply inject_success_marked in Hinj as (t' & Ht' & Hmarked).
    unfold updatedDocument. rewrite Hmeta', Hkind', Ho'.
    rewrite (inject_marked_object jsonUnmarshal jsonMarshal q k o' t')
      by done.
    by rewrite Hb.
  - simplify_eq. unfold updatedDocument. by rewrite Hmeta, Hkind.
Qed.

Lemma IntoResourceFile_again (p q : Params)
    (reads : list (Error + list byte)) (out out1 : list byte) :
  (∀ k o b,
     yamlMarshal k o = inr b →
     ∃ meta, yamlUnmarshalMeta b = inr meta ∧
             kinds (Kind meta) = Some k ∧
             yamlUnmarshal k b = inr o) →
  IntoResourceFile p reads out = (out1, Returned None) →
  ∃ emitted,
    length emitted = length reads ∧
    out1 = out ++ concat ((λ updated, updated ++ separator) <$> emitted) ∧
    ∀ out' : list byte,
      IntoResourceFile q (inr <$> emitted) out' =
        (out' ++ concat ((λ updated, updated ++ separator) <$> emitted),
         Returned None).
Proof.
  intros Hcodec. revert out.
  induction reads as [|[err|raw] reads IH]; intros out Hrun.
  - exists []. simpl in *. simplify_eq. split; [done|].
    split; [by rewrite app_nil_r|]. intros out'. by rewrite app_nil_r.
  - done.
  - rewrite (IntoResourceFile_document jsonUnmarshal jsonMarshal) in Hrun.
    destruct (updatedDocument p raw) as [r|updated] eqn:Hupdated.
    { apply updatedDocument_early in Hupdated. by simplify_eq. }
    destruct (IH _ Hrun) as (emitted & Hlen & Hout & Hagain).
    exists (updated :: emitted). split; [simpl; by rewrite Hlen|].
    split; [rewrite Hout; simpl; by rewrite <- !app_assoc|].
    intros out'. rewrite fmap_cons.
    rewrite (IntoResourceFile_document jsonUnmarshal jsonMarshal).
    rewrite (updatedDocument_again p q raw updated) by done.
    rewrite Hagain. simpl. by rewrite <- !app_assoc.
Qed.

(** X16. Running the processor on its own output. Suppose decoding undoes
    encoding: a document the encoder produced for an object of a kind decodes
    to that kind and to that object. Then, when a run into an empty buffer
    returns success, the buffer holds one document per input document, each
    followed by the separator, and processing those documents again, under
    whatever parameters, returns success and writes the same bytes. *)
Theorem X16_stream_idempotent (p q : Params)
    (reads : list (Error + list byte)) (out1 : list byte) :
  (∀ k o b,
     yamlMarshal k o = inr b →
     ∃ meta, yamlUnmarshalMeta b = inr meta ∧
             kinds (Kind meta) = Some k ∧
             yamlUnmarshal k b = inr o) →
  IntoResourceFile p reads [] = (out1, Returned None) →
  ∃ emitted,
    length emitted = length reads ∧
    out1 = concat ((λ updated, updated ++ separator) <$> emitted) ∧
    IntoResourceFile q (inr <$> emitted) [] = (out1, Returned None).
Proof.
  intros Hcodec Hrun.
  destruct (IntoResourceFile_again p q reads [] out1 Hcodec Hrun)
    as (emitted & Hlen & Hout & Hagain).
  exists emitted. split; [done|]. split; [done|]. by rewrite Hagain, Hout.
Qed.

End StreamOutcomes.

(** ** The stream processor cut short and run again, on the sample
    documents *)

Lemma X15_stream_abort_witness :
  IntoResourceFile Sample.jsonUnmarshal Sample.jsonMarshal
    Sample.yamlUnmarshalMeta Sample.yamlUnmarshal Sample.yamlMarshal
    Sample.params
    ([inr Sample.service] ++
     inl (ErrLibrary "unexpected EOF") :: [inr Sample.commented]) [] =
    (Sample.service ++ separator, Returned (Some (ErrLibrary "unexpected EOF")))
  ∧
  IntoResourceFile Sample.jsonUnmarshal Sample.jsonMarshal
    Sample.yamlUnmarshalMeta Sample.yamlUnmarshal Sample.yamlMarshal
    Sample.params
    ([inr Sample.service] ++
     inr (Sample.unlines ["kind: ["]) :: [inr Sample.commented]) [] =
    (Sample.service ++ separator,
     Returned (Some (ErrLibrary "yaml: unsupported document")))
  ∧
  IntoResourceFile Sample.jsonUnmarshal Sample.jsonMarshal
    Sample.yamlUnmarshalMeta Sample.yamlUnmarshal Sample.yamlMarshal
    (H := Sample.closedPipe)
    Sample.params ([] ++ inr Sample.service :: [inr Sample.commented]) () =
    ((), Returned (Some (ErrLibrary "write: closed pipe"))).
Proof.
  assert (IntoResourceFile Sample.jsonUnmarshal Sample.jsonMarshal
            Sample.yamlUnmarshalMeta Sample.yamlUnmarshal Sample.yamlMarshal
            Sample.params [inr Sample.service] [] =
          (Sample.service ++ separator, Returned None)) as Hbefore
    by (vm_compute; reflexivity).
  destruct (X15_stream_abort Sample.jsonUnmarshal Sample.jsonMarshal
              Sample.yamlUnmarshalMeta Sample.yamlUnmarshal Sample.yamlMarshal
              Sample.params [inr Sample.service] [inr Sample.commented]
              [] (Sample.service ++ separator) Hbefore)
    as (Hread & Hdocument & _).
  destruct (X15_stream_abort (W := unit) (H := Sample.closedPipe)
              Sample.jsonUnmarshal Sample.jsonMarshal
              Sample.yamlUnmarshalMeta Sample.yamlUnmarshal Sample.yamlMarshal
              Sample.params [] [inr Sample.commented] () () eq_refl)
    as (_ & _ & Hwrite & _).
  split_and!.
  - apply Hread.
  - apply Hdocument. vm_compute. reflexivity.
  - apply (Hwrite Sample.service Sample.service ()
             (ErrLibrary "write: closed pipe"));
      [vm_compute; reflexivity|reflexivity].
Defined.

Lemma sample_codec_round_trip (k : WorkloadKind) (o : typ k) (b : list byte) :
  Sample.yamlMarshal k o = inr b →
  ∃ meta, Sample.yamlUnmarshalMeta b = inr meta ∧
          kinds (Kind meta) = Some k ∧
          Sample.yamlUnmarshal k b = inr o.
Proof.
  destruct k; simpl; intros Hb; try discriminate Hb.
  case_decide as Ho; [|discriminate Hb]. injection Hb as <-. rewrite Ho.
  exists {| Kind := "Deployment"; APIVersion := "extensions/v1beta1" |}.
  split; [vm_compute; reflexivity|]. split; vm_compute; reflexivity.
Defined.

Lemma X16_stream_idempotent_witness :
  ∃ emitted,
    length emitted = 2%nat ∧
    IntoResourceFile Sample.jsonUnmarshal Sample.jsonMarshal
      Sample.yamlUnmarshalMeta Sample.yamlUnmarshal Sample.yamlMarshal
      Sample.paramsTLS (inr <$> emitted) [] =
      ((Sample.service ++ separator) ++ Sample.canonical ++ separator,
       Returned None).
Proof.
  destruct (X16_stream_idempotent Sample.jsonUnmarshal Sample.jsonMarshal
              Sample.yamlUnmarshalMeta Sample.yamlUnmarshal Sample.yamlMarshal
              Sample.params Sample.paramsTLS
              [inr Sample.service; inr Sample.commented]
              ((Sample.service ++ separator) ++ Sample.canonical ++ separator)
              sample_codec_round_trip ltac:(vm_compute; reflexivity))
    as (emitted & Hlen & _ & Hagain).
  exists emitted. split; [exact Hlen|exact Hagain].
Defined.

(** ** Bounds and whole streams *)

Lemma probePorts_length (c : Container) : (length (probePorts c) ≤ 2)%nat.
Proof.
  unfold probePorts, probePort. rewrite length_app.
  destruct (LivenessProbe c) as [[[?|]]|], (ReadinessProbe c) as [[[?|]]|];
    simpl; lia.
Qed.

Lemma resolutions_length (cs : list Container) :
  length (resolutions cs) = length (cs ≫= probePorts).
Proof.
  unfold resolutions. induction cs as [|c cs IH]; [done|].
  by rewrite !bind_cons, !length_app, length_fmap, IH.
Qed.

Lemma resolvedPorts_length (rs : list (Error + Z)) :
  (length (resolvedPorts rs) ≤ length rs)%nat.
Proof.
  unfold resolvedPorts. induction rs as [|[?|?] rs IH]; cbn in *; lia.
Qed.

(** X17. How many ports there can be. The resolver returns at most one port
    per HTTP-get probe, hence at most two per container of the template. *)
Theorem X17_healthPorts_bound (t : PodTemplateSpec) :
  (length (healthPorts t).1 ≤ length (Containers (Spec t) ≫= probePorts))%nat ∧
  (length (Containers (Spec t) ≫= probePorts) ≤
   2 * length (Containers (Spec t)))%nat.
Proof.
  split.
  - rewrite healthPorts_ports, merge_sort_Permutation, <- resolutions_length.
    etransitivity; [|apply resolvedPorts_length].
    apply submseteq_length, NoDup_submseteq; [apply NoDup_elements|].
    intros n Hn. by apply elem_of_elements, elem_of_list_to_set in Hn.
  - induction (Containers (Spec t)) as [|c cs IH]; [done|].
    rewrite bind_cons, length_app, length_cons.
    pose proof (probePorts_length c). lia.
Qed.

Section WholeStreams.

Variable jsonUnmarshal : list byte → Error + list JSON.
Variable jsonMarshal : list JSON → Error + list byte.
Variable yamlUnmarshalMeta : list byte → Error + TypeMeta.
Variable yamlUnmarshal : ∀ k : WorkloadKind, list byte → Error + typ k.
Variable yamlMarshal : ∀ k : WorkloadKind, typ k → Error + list byte.

Local Abbreviation injectIntoPodTemplateSpec :=
  (injectIntoPodTemplateSpec jsonUnmarshal jsonMarshal).
Local Abbreviation inject := (inject jsonUnmarshal jsonMarshal).
Local Abbreviation updatedDocument :=
  (updatedDocument jsonUnmarshal jsonMarshal
     yamlUnmarshalMeta yamlUnmarshal yamlMarshal).
Local Abbreviation IntoResourceFile :=
  (IntoResourceFile jsonUnmarshal jsonMarshal
     yamlUnmarshalMeta yamlUnmarshal yamlMarshal (W := list byte)).

(** X18. A stream without workloads passes through. When the type header of
    every document decodes and names none of the five workload kinds, the
    processor returns success, under whatever parameters, and has appended to
    the buffer the documents as they were read, in their order, each followed
    by the separator line; for the empty stream it appends nothing. *)
Theorem X18_stream_without_workloads (p : Params) (raws : list (list byte))
    (out : list byte) :
  Forall (λ raw, ∃ meta,
            yamlUnmarshalMeta raw = inr meta ∧
            Kind meta ∉ ["Job"; "DaemonSet"; "ReplicaSet"; "Deployment";
                         "ReplicationController"]) raws →
  IntoResourceFile p (inr <$> raws) out =
    (out ++ concat ((λ raw, raw ++ separator) <$> raws), Returned None).
Proof.
  intros Hraws. revert out.
  induction Hraws as [|raw raws (meta & Hmeta & Hkind) _ IH]; intros out.
  - simpl. by rewrite app_nil_r.
  - rewrite fmap_cons.
    rewrite (IntoResourceFile_document jsonUnmarshal jsonMarshal).
    apply kinds_unrecognized in Hkind.
    unfold updatedDocument. rewrite Hmeta, Hkind, IH. simpl.
    by rewrite <- !app_assoc.
Qed.

(** X19. A workload that is injected. When a document names a workload kind,
    decodes to an object with a pod template, and the mutator returns success
    on that template, the processor emits the encoding of an object of the
    same kind with the same metadata whose template is the template the
    mutator left, followed by the separator line; when that encoding fails,
    it stops with the error of the encoder and emits nothing for the
    document. *)
Theorem X19_workload_is_reencoded (p : Params) (raw : list byte)
    (meta : TypeMeta) (kind : WorkloadKind) (o : typ kind)
    (t t' : PodTemplateSpec) (reads : list (Error + list byte))
    (out : list byte) :
  yamlUnmarshalMeta raw = inr meta →
  kinds (Kind meta) = Some kind →
  yamlUnmarshal kind raw = inr o →
  podTemplate kind o = Some t →
  injectIntoPodTemplateSpec p t = (t', Returned None) →
  ∃ o',
    podTemplate kind o' = Some t' ∧
    objectMeta kind o' = objectMeta kind o ∧
    IntoResourceFile p (inr raw :: reads) out =
      match yamlMarshal kind o' with
      | inl err => (out, Returned (Some err))
      | inr updated => IntoResourceFile p reads (out ++ updated ++ separator)
      end.
Proof.
  intros Hmeta Hkind Ho Ht Hinj.
  pose proof (inject_template jsonUnmarshal jsonMarshal p kind o)
    as (Ht' & Hm' & Hout).
  rewrite Ht in Ht', Hout. simpl in Ht', Hout.
  rewrite Hinj in Ht', Hout. simpl in Ht', Hout.
  exists (inject p kind o).1. split; [done|]. split; [done|].
  rewrite (IntoResourceFile_document jsonUnmarshal jsonMarshal).
  unfold updatedDocument. rewrite Hmeta, Hkind, Ho.
  destruct (inject p kind o) as [o' r]. simpl in *. subst r.
  by destruct (yamlMarshal kind o').
Qed.

End WholeStreams.

Lemma X18_stream_without_workloads_witness :
  IntoResourceFile Sample.jsonUnmarshal Sample.jsonMarshal
    Sample.yamlUnmarshalMeta Sample.yamlUnmarshal Sample.yamlMarshal
    Sample.paramsNoMesh [inr Sample.service; inr Sample.service] [] =
  ((Sample.service ++ separator) ++ (Sample.service ++ separator) ++ [],
   Returned None).
Proof.
  apply (X18_stream_without_workloads Sample.jsonUnmarshal Sample.jsonMarshal
           Sample.yamlUnmarshalMeta Sample.yamlUnmarshal Sample.yamlMarshal
           Sample.paramsNoMesh [Sample.service; Sample.service] []).
  assert (∃ meta,
            Sample.yamlUnmarshalMeta Sample.service = inr meta ∧
            Kind meta ∉ ["Job"; "DaemonSet"; "ReplicaSet"; "Deployment";
                         "ReplicationController"]) as Hservice.
  { exists {| Kind := "Service"; APIVersion := "v1" |}.
    split; [vm_compute; reflexivity|].
    apply (bool_decide_unpack _). vm_compute. exact I. }
  repeat constructor; exact Hservice.
Defined.

Lemma X19_workload_is_reencoded_witness :
  IntoResourceFile Sample.jsonUnmarshal Sample.jsonMarshal
    Sample.plainUnmarshalMeta Sample.plainUnmarshal Sample.plainMarshal
    Sample.params [inr Sample.plain] [] =
  (Sample.injected ++ separator, Returned None).
Proof.
  destruct (X19_workload_is_reencoded Sample.jsonUnmarshal Sample.jsonMarshal
              Sample.plainUnmarshalMeta Sample.plainUnmarshal
              Sample.plainMarshal Sample.params Sample.plain
              {| Kind := "Deployment"; APIVersion := "extensions/v1beta1" |}
              KDeployment Sample.plainDeployment
              (DeploymentTemplate Sample.plainDeployment)
              (DeploymentTemplate Sample.injectedDeployment) [] []
              ltac:(vm_compute; reflexivity) ltac:(vm_compute; reflexivity)
              ltac:(vm_compute; reflexivity) eq_refl
              ltac:(vm_compute; reflexivity))
    as ([m tpl] & Htemplate & Hmeta & Hrun).
  simpl in Htemplate, Hmeta. injection Htemplate as ->. subst m.
  rewrite Hrun. vm_compute. reflexivity.
Defined.
